(** * specmatchemp.library: the spectral library container

    A shallow embedding of [src/specmatchemp/library.py]: the [Library]
    class (constructor, [insert], [to_hdf], the container protocol) and the
    module-level [read_hdf].

    Conventions of the embedding.
    - Python exceptions are values of [exn]; code that can raise returns a
      [result].  Code that mutates objects and can raise half-way runs in
      the monad [M S], whose final state is kept when an exception is
      raised, as in Python.
    - float64 samples are Rocq's primitive binary64 floats, compared with
      [PrimFloat.ltb] (so a NaN is never inside a wavelength window).
    - A [pandas.DataFrame] is a list of column names and a list of labelled
      rows; a 3-axis [numpy.ndarray] carries its two trailing dimensions
      explicitly, so that the shape [(0, 2, W)] is represented.
    - A header [dict] and the file system are [gmap]s.
    - [str(datetime.date.today())] is the parameter [today]. *)

From Corelib Require Import PrimFloat.
From stdpp Require Import base option list gmap strings pretty.

Local Open Scope Z_scope.
Local Open Scope string_scope.
Local Open Scope list_scope.

(** ** Exceptions and results *)

Inductive exn : Type :=
  | AssertionError (msg : string)
  | KeyError
  | IndexError
  | NameError (name : string)
  | AttributeError (attr : string)
  | ZeroDivisionError
  | ValueError
  | OSError.

Inductive result (A : Type) : Type :=
  | Ok (a : A)
  | Raise (e : exn).
Arguments Ok {A} a.
Arguments Raise {A} e.

#[global] Instance result_ret : MRet result := λ A a, Ok a.
#[global] Instance result_fmap : FMap result := λ A B f m,
  match m with
  | Ok a => Ok (f a)
  | Raise e => Raise e
  end.
#[global] Instance result_bind : MBind result := λ A B f m,
  match m with
  | Ok a => f a
  | Raise e => Raise e
  end.

(** State and exceptions: the state reached when the exception is raised is
    part of the outcome. *)
Definition M (S A : Type) : Type := S → result A * S.

#[global] Instance M_ret {S} : MRet (M S) := λ A a s, (Ok a, s).
#[global] Instance M_bind {S} : MBind (M S) := λ A B f m s,
  match m s with
  | (Ok a, s') => f a s'
  | (Raise e, s') => (Raise e, s')
  end.

Definition get {S} : M S S := λ s, (Ok s, s).
Definition put {S} (s : S) : M S unit := λ _, (Ok (), s).
Definition lift {S A} (r : result A) : M S A := λ s, (r, s).

(** [assert cond, msg] *)
Definition assert_ (cond : bool) (msg : string) : result unit :=
  if cond then Ok () else Raise (AssertionError msg).

(** [for x in l: body(x)] *)
Fixpoint for_ {F : Type → Type} `{!MBind F, !MRet F} {A : Type}
    (l : list A) (body : A → F unit) : F unit :=
  match l with
  | [] => mret ()
  | x :: l' => body x ;; for_ l' body
  end.

(** ** Values *)

Inductive scalar : Type :=
  | SStr (s : string)
  | SInt (z : Z)
  | SFloat (x : float).

Definition NaN : scalar := SFloat PrimFloat.nan.

(** ** pandas.DataFrame *)

Record DataFrame : Type := mkDataFrame {
  columns : list string;
  df_rows : list (Z * list scalar)  (* index label, cells in column order *)
}.

(** [df.index] *)
Definition df_index (df : DataFrame) : list Z := (df_rows df).*1.

(** [len(df)] *)
Definition df_len (df : DataFrame) : nat := length (df_rows df).

(** Position of a column name. *)
Definition col_pos (cols : list string) (c : string) : option nat :=
  fst <$> list_find (λ c', c' = c) cols.

(** The cell of a row under a column name. *)
Definition cell_of (cols : list string) (cells : list scalar) (c : string)
    : option scalar :=
  col_pos cols c ≫= λ i, cells !! i.

(** [df.iloc[i][c]]: the cell at row position [i] under column [c]. *)
Definition df_cell (df : DataFrame) (i : nat) (c : string) : option scalar :=
  df_rows df !! i ≫= λ r, cell_of (columns df) r.2 c.

(** [df.c = v] for an existing column [c]: the whole column becomes [v]. *)
Definition set_column (c : string) (v : scalar) (df : DataFrame) : DataFrame :=
  match col_pos (columns df) c with
  | Some i =>
      mkDataFrame (columns df) ((λ r, (r.1, <[i := v]> r.2)) <$> df_rows df)
  | None => df
  end.

(** A row laid out under another list of columns; a column the row does not
    have is filled with NaN. *)
Definition reindex (new_cols cols : list string) (cells : list scalar)
    : list scalar :=
  (λ c, default NaN (cell_of cols cells c)) <$> new_cols.

(** [pd.concat((a, b), ignore_index=True)]: the rows of [a], then those of
    [b], aligned by column name, relabelled 0, 1, ... *)
Definition concat_ignore_index (a b : DataFrame) : DataFrame :=
  let cols :=
    columns a ++ filter (λ c, c ∉ columns a) (columns b) in
  let cells :=
    ((λ r, reindex cols (columns a) r.2) <$> df_rows a)
    ++ ((λ r, reindex cols (columns b) r.2) <$> df_rows b) in
  mkDataFrame cols (imap (λ i r, (Z.of_nat i, r)) cells).

(** [df.loc[label]] for a label that at most one row carries: that row.
    (Where several rows carry the label pandas returns a frame of them; the
    first one stands for it here, and no statement below reaches that
    case.) *)
Definition df_loc (df : DataFrame) (label : Z) : result (list (string * scalar)) :=
  match list_find (λ r, r.1 = label) (df_rows df) with
  | Some (_, r) => Ok (zip (columns df) r.2)
  | None => Raise KeyError
  end.

(** ** numpy.ndarray with three axes, dtype float64 *)

Record ndarray3 : Type := mkArr3 {
  dim1 : nat;
  dim2 : nat;
  slabs : list (list (list float))   (* leading axis *)
}.

(** [len(a)] *)
Definition len3 (a : ndarray3) : nat := length (slabs a).

(** [np.shape(a)] *)
Definition shape3 (a : ndarray3) : nat * nat * nat := (len3 a, dim1 a, dim2 a).

(** [np.empty((0, d1, d2))] *)
Definition np_empty0 (d1 d2 : nat) : ndarray3 := mkArr3 d1 d2 [].

(** [np.vstack((a, [[spectrum, u_spectrum]]))].  The nested list is an
    array of shape (1, 2, L) only when both rows have the same length L, and
    the two arrays are stacked only when the trailing dimensions agree. *)
Definition np_vstack (a : ndarray3) (spectrum u_spectrum : list float)
    : result ndarray3 :=
  if negb (bool_decide (length spectrum = length u_spectrum)) then
    Raise ValueError
  else if negb (bool_decide (dim1 a = 2%nat ∧ dim2 a = length spectrum)) then
    Raise ValueError
  else
    Ok (mkArr3 (dim1 a) (dim2 a) (slabs a ++ [[spectrum; u_spectrum]])).

(** [a[:, :, 0].nbytes]: subscript 0 on the last axis must exist; the slice
    has [len(a) * dim1] items of 8 bytes. *)
Definition nbytes_col0 (a : ndarray3) : result Z :=
  if bool_decide (dim2 a = 0%nat) then Raise IndexError
  else Ok (Z.of_nat (len3 a) * Z.of_nat (dim1 a) * 8).

(** [np.where(cond)]: the positions where the condition holds. *)
Definition np_where {A} (p : A → bool) (l : list A) : list nat :=
  omap (λ ix, if p ix.2 then Some ix.1 else None) (imap pair l).

(** ** Files

    Both files are HDF5 containers: root attributes, pandas table nodes and
    array datasets, each under a string key.  The file system maps a path to
    a container; every write below goes through to it, so what was written
    before an exception stays on disk.

    The storage is modelled as the module relies on it: writing a frame, an
    attribute or the axis succeeds, and what was stored is read back as
    stored.  The libraries are stricter in places this model leaves out:
    pandas refuses a frame with a column of mixed objects, writes no table
    node for a frame without rows and reads the text nan back as a missing
    value, and h5py refuses an attribute value that has no HDF5 type.  A
    statement about a stored table is therefore made where the save
    returned, and says nothing of the cells pandas rewrites. *)

Record hdf5 : Type := mkHdf5 {
  attrs : gmap string scalar;
  frames : gmap string DataFrame;
  arrays1 : gmap string (list float);
  arrays3 : gmap string ndarray3
}.

Definition hdf5_new : hdf5 := mkHdf5 ∅ ∅ ∅ ∅.

(** [df.to_hdf(path, key, format='table', mode='w')]: a fresh file holding
    the one table. *)
Definition DataFrame_to_hdf (df : DataFrame) (path key : string)
    : M (gmap string hdf5) unit :=
  λ fs, (Ok (), <[path := mkHdf5 ∅ {[key := df]} ∅ ∅]> fs).

(** [h5py.File(path, 'w')]: the file is created or truncated. *)
Definition h5py_File_w (path : string) : M (gmap string hdf5) unit :=
  λ fs, (Ok (), <[path := hdf5_new]> fs).

(** A write through the open handle on [path]. *)
Definition h5_write (path : string) (g : hdf5 → hdf5)
    : M (gmap string hdf5) unit :=
  λ fs,
    match fs !! path with
    | Some f => (Ok (), <[path := g f]> fs)
    | None => (Raise OSError, fs)
    end.

(** [f.attrs[key] = v] *)
Definition set_attr (key : string) (v : scalar) (f : hdf5) : hdf5 :=
  mkHdf5 (<[key := v]> (attrs f)) (frames f) (arrays1 f) (arrays3 f).

(** [f[key] = a] for a 1-D array *)
Definition set_array1 (key : string) (a : list float) (f : hdf5) : hdf5 :=
  mkHdf5 (attrs f) (frames f) (<[key := a]> (arrays1 f)) (arrays3 f).

Definition set_array3 (key : string) (a : ndarray3) (f : hdf5) : hdf5 :=
  mkHdf5 (attrs f) (frames f) (arrays1 f) (<[key := a]> (arrays3 f)).

(** HDF5 stores a chunked dataset of fixed shape only when every chunk
    dimension is positive and none exceeds the dataset's dimension;
    [create_dataset] raises ValueError otherwise. *)
Definition chunks_fit (shape : nat * nat * nat) (chunks : Z * Z * Z) : bool :=
  let '(s0, s1, s2) := shape in
  let '(c0, c1, c2) := chunks in
  bool_decide (0 < c0 ≤ Z.of_nat s0)
  && bool_decide (0 < c1 ≤ Z.of_nat s1)
  && bool_decide (0 < c2 ≤ Z.of_nat s2).

(** [f.create_dataset(key, data=a, compression='gzip', compression_opts=1,
    shuffle=True, chunks=chunks)] *)
Definition create_dataset (path key : string) (a : ndarray3)
    (chunks : Z * Z * Z) : M (gmap string hdf5) unit :=
  lift (if chunks_fit (shape3 a) chunks then Ok () else Raise ValueError) ;;
  h5_write path (set_array3 key a).

(** [int(x / y)] for the float [x = 100e3] and a non-negative int [y]: the
    division raises on zero, and truncating the float quotient gives the
    integer quotient. *)
Definition int_truediv (x y : Z) : result Z :=
  if bool_decide (y = 0) then Raise ZeroDivisionError else Ok (x `div` y).

(** ** The module constants *)

Definition LIB_COLS : list string :=
  ["lib_index"; "cps_name"; "obs"; "lib_obs"; "Teff"; "u_Teff"; "radius";
   "u_radius"; "logg"; "u_logg"; "feh"; "u_feh"; "mass"; "u_mass"; "age";
   "u_age"; "vsini"; "source"; "source_name"].

(** The assertion messages. *)
Definition msg_table_col (col : string) : string :=
  col +:+ " required in parameter table".
Definition msg_length : string :=
  "Error: Length of parameter table and library spectra are not equal.".
Definition msg_index (i : Z) : string :=
  "Error: Index " +:+ pretty i +:+ " is out of bounds in library_spectra".
Definition msg_shape (num_spec len_wav : nat) : string :=
  "Error: library_spectra should have shape (" +:+ pretty num_spec
  +:+ ", 2, " +:+ pretty len_wav.
Definition msg_row_col (col : string) : string :=
  col +:+ " required in parameter specification.".
Definition msg_spectrum : string :=
  "Error: spectrum is not the same length as library wavelength array".

(** ** class Library *)

Module Library.

Record t : Type := mk {
  library_params : DataFrame;
  wav : list float;
  library_spectra : ndarray3;
  header : gmap string scalar;
  wavlim : option (float * float)
}.

(** [target_chunk_bytes = 100e3] *)
Definition target_chunk_bytes : Z := 100000.

(** [Library.__init__(self, wav, library_spectra=None, library_params=None,
    header={}, wavlim=None)] *)
Definition __init__ (today : string) (wav : list float)
    (library_spectra : option ndarray3) (library_params : option DataFrame)
    (header : gmap string scalar) (wavlim : option (float * float))
    : result t :=
  match library_spectra, library_params with
  | Some library_spectra, Some library_params =>
      for_ LIB_COLS (λ col,
        assert_ (bool_decide (col ∈ columns library_params))
                (msg_table_col col)) ;;
      let num_spec := len3 library_spectra in
      assert_ (bool_decide (df_len library_params = num_spec)) msg_length ;;
      for_ (df_index library_params) (λ i,
        assert_ (bool_decide (i < Z.of_nat num_spec)) (msg_index i)) ;;
      assert_ (bool_decide (dim1 library_spectra = 2%nat)
               && bool_decide (dim2 library_spectra = length wav))
              (msg_shape num_spec (length wav)) ;;
      Ok (mk library_params wav library_spectra
             (<["date_created" := SStr today]> header) wavlim)
  | _, _ =>
      Ok (mk (mkDataFrame LIB_COLS []) wav (np_empty0 2 (length wav))
             {["date_created" := SStr today]} wavlim)
  end.

(** [Library.insert(self, params, spectrum, u_spectrum)].  The state is the
    pair of the library object and the caller's [params] frame, which the
    method assigns to. *)
Definition insert (spectrum u_spectrum : list float)
    : M (t * DataFrame) unit :=
  '(self, params) ← get ;
  lift (assert_ (bool_decide
          (df_len (library_params self) = len3 (library_spectra self)))
        msg_length) ;;
  lift (for_ LIB_COLS (λ col,
          assert_ (bool_decide (col ∈ columns params)) (msg_row_col col))) ;;
  lift (assert_ (bool_decide (length spectrum = length (wav self)))
        msg_spectrum) ;;
  (* params.lib_index = len(self.library_spectra) *)
  let params :=
    set_column "lib_index" (SInt (Z.of_nat (len3 (library_spectra self))))
               params in
  put (self, params) ;;
  (* self.library_params = pd.concat(...) *)
  let self :=
    mk (concat_ignore_index (library_params self) params) (wav self)
       (library_spectra self) (header self) (wavlim self) in
  put (self, params) ;;
  (* self.library_spectra = np.vstack(...) *)
  stacked ← lift (np_vstack (library_spectra self) spectrum u_spectrum) ;
  put (mk (library_params self) (wav self) stacked (header self)
          (wavlim self), params).

(** [Library.__len__] *)
Definition __len__ (self : t) : nat := len3 (library_spectra self).

(** [Library.__contains__] *)
Definition __contains__ (self : t) (index : Z) : bool :=
  bool_decide (index ∈ df_index (library_params self)).

(** [Library.__getitem__].  The second component of the returned tuple is
    [self.library_spectra.loc[index]]; a numpy array has no attribute
    [loc], so evaluating it raises AttributeError. *)
Definition __getitem__ (self : t) (index : Z)
    : result (list (string * scalar) * list (list float)) :=
  if negb (__contains__ self index) then Raise KeyError
  else
    row ← df_loc (library_params self) index ;
    Raise (AttributeError "loc").

(** [Library.to_hdf(self, paramfile, specfile)].  The notice printed before
    the dataset is created has no effect on the files and is left out. *)
Definition to_hdf (self : t) (paramfile specfile : string)
    : M (gmap string hdf5) unit :=
  (* store params *)
  DataFrame_to_hdf (library_params self) paramfile "library_params" ;;
  (* store spectrum *)
  h5py_File_w specfile ;;
  for_ (map_to_list (header self)) (λ kv,
    h5_write specfile (set_attr kv.1 kv.2)) ;;
  h5_write specfile (set_array1 "wav" (wav self)) ;;
  let chunk_row := Z.of_nat (len3 (library_spectra self)) in
  let chunk_depth := 2 in
  nbytes ← lift (nbytes_col0 (library_spectra self)) ;
  chunk_col ← lift (int_truediv target_chunk_bytes nbytes) ;
  let chunk_size := (chunk_row, chunk_depth, chunk_col) in
  create_dataset specfile "library_spectra" (library_spectra self) chunk_size.

End Library.

(** ** read_hdf *)

(** [pd.read_hdf(path, key)] *)
Definition pd_read_hdf (fs : gmap string hdf5) (path key : string)
    : result DataFrame :=
  match fs !! path with
  | None => Raise OSError
  | Some f =>
      match frames f !! key with
      | Some df => Ok df
      | None => Raise KeyError
      end
  end.

(** [h5py.File(path, 'r')] *)
Definition h5py_File_r (fs : gmap string hdf5) (path : string)
    : result hdf5 :=
  match fs !! path with
  | None => Raise OSError
  | Some f => Ok f
  end.

(** [d[key]] on a mapping of datasets *)
Definition getitem_key {A} (d : gmap string A) (key : string) : result A :=
  match d !! key with
  | Some a => Ok a
  | None => Raise KeyError
  end.

(** [a[0]] and [a[-1]] on a 1-D integer array *)
Definition getitem_first (a : list nat) : result nat :=
  match head a with
  | Some i => Ok i
  | None => Raise IndexError
  end.
Definition getitem_last (a : list nat) : result nat :=
  match last a with
  | Some i => Ok i
  | None => Raise IndexError
  end.

(** The window test [(wav > wavlim[0]) & (wav < wavlim[1])] on one sample. *)
Definition in_window (wavlim : float * float) (v : float) : bool :=
  PrimFloat.ltb wavlim.1 v && PrimFloat.ltb v wavlim.2.

(** [read_hdf(paramfile, specfile, wavlim=None)].  In the windowed branch
    the tensor is read through the name [h5], which is bound nowhere in the
    module (the import is [h5py], the handle is [f]): evaluating it raises
    NameError, and the statements after it are not reached. *)
Definition read_hdf (today : string) (fs : gmap string hdf5)
    (paramfile specfile : string) (wavlim : option (float * float))
    : result Library.t :=
  library_params ← pd_read_hdf fs paramfile "library_params" ;
  f ← h5py_File_r fs specfile ;
  let header := attrs f in
  wav ← getitem_key (arrays1 f) "wav" ;
  library_spectra ←
    match wavlim with
    | None => getitem_key (arrays3 f) "library_spectra"
    | Some wavlim =>
        let idxwav := np_where (in_window wavlim) wav in
        idxmin ← getitem_first idxwav ;
        idxmax ← (λ i, (i + 1)%nat) <$> getitem_last idxwav ;
        Raise (NameError "h5")
    end ;
  Library.__init__ today wav (Some library_spectra) (Some library_params)
                   header wavlim.

(** ** Iteration over a library

    [Library.__iter__] and [Library.__next__].  The library is its own
    iterator: the cursor is the private attribute [__it_counter] of the
    object, unset until [__iter__] is called.  The state is the library and
    that attribute.  [raise StopIteration], the end signal of the iterator
    protocol, is the outcome [Ok None]; an item is [Ok (Some _)]. *)

Module Iteration.

(** [Library.__iter__]: the cursor is reset; the object itself is returned. *)
Definition __iter__ : M (Library.t * option nat) unit :=
  '(self, _) ← get ;
  put (self, Some 0%nat).

(** [Library.__next__] *)
Definition __next__
    : M (Library.t * option nat)
        (option (list (string * scalar) * list (list float))) :=
  '(self, it_counter) ← get ;
  counter ← lift (match it_counter with
                  | Some c => Ok c
                  | None => Raise (AttributeError "_Library__it_counter")
                  end) ;
  if bool_decide (len3 (Library.library_spectra self) ≤ counter)%nat then
    mret None
  else
    let idx := counter in
    put (self, Some (counter + 1)%nat) ;;
    row ← lift (df_loc (Library.library_params self) (Z.of_nat idx)) ;
    slab ← lift (match slabs (Library.library_spectra self) !! idx with
                 | Some slab => Ok slab
                 | None => Raise IndexError
                 end) ;
    mret (Some (row, slab)).

(** Calls of [__next__] until StopIteration, at most [fuel] of them; [None]
    when the fuel runs out first. *)
Fixpoint next_all (fuel : nat)
    : M (Library.t * option nat)
        (option (list (list (string * scalar) * list (list float)))) :=
  match fuel with
  | O => mret None
  | S fuel' =>
      item ← __next__ ;
      match item with
      | None => mret (Some [])
      | Some x => rest ← next_all fuel' ; mret ((λ l, x :: l) <$> rest)
      end
  end.

(** [list(library)]: [iter] once, then [next] until StopIteration. *)
Definition list_ (fuel : nat)
    : M (Library.t * option nat)
        (option (list (list (string * scalar) * list (list float)))) :=
  __iter__ ;; next_all fuel.

End Iteration.

(** * Specification vocabulary *)

(** The table has every required field. *)
Definition has_required_fields (df : DataFrame) : Prop :=
  ∀ col, col ∈ LIB_COLS → col ∈ columns df.

(** Every row of a frame has one cell per column. *)
Definition df_wf (df : DataFrame) : Prop :=
  Forall (λ r, length r.2 = length (columns df)) (df_rows df).

(** Invariants 1 and 3 of a library: the table and the tensor have the same
    length, and the tensor has shape (N, 2, W) for the axis of length W. *)
Definition consistent (lib : Library.t) : Prop :=
  df_len (Library.library_params lib) = len3 (Library.library_spectra lib)
  ∧ dim1 (Library.library_spectra lib) = 2%nat
  ∧ dim2 (Library.library_spectra lib) = length (Library.wav lib).

(** What [insert] can store in a library whose axis has [W] samples: a frame
    of one row with the required fields, and a spectrum and an uncertainty
    of [W] samples each. *)
Definition valid_entry (W : nat) (e : DataFrame * list float * list float)
    : Prop :=
  df_wf e.1.1 ∧ df_len e.1.1 = 1%nat ∧ has_required_fields e.1.1
  ∧ length e.1.2 = W ∧ length e.2 = W.

(** The frame [params] after [params.lib_index = len(self.library_spectra)]. *)
Definition stamped (self : Library.t) (params : DataFrame) : DataFrame :=
  set_column "lib_index"
    (SInt (Z.of_nat (len3 (Library.library_spectra self)))) params.

(** The library after the table was concatenated, before the tensor is. *)
Definition table_appended (self : Library.t) (params : DataFrame)
    : Library.t :=
  Library.mk
    (concat_ignore_index (Library.library_params self) (stamped self params))
    (Library.wav self) (Library.library_spectra self) (Library.header self)
    (Library.wavlim self).

(** The library [self'] is [self] with one entry appended: the row
    [params'] is the last row of the table, under the label and the index N,
    the earlier rows are as they were, and the pair of spectrum and
    uncertainty is the last slab of the tensor. *)
Definition appended (self : Library.t) (params' : DataFrame)
    (spectrum u_spectrum : list float) (self' : Library.t) : Prop :=
  let N := len3 (Library.library_spectra self) in
  df_cell params' 0 "lib_index" = Some (SInt (Z.of_nat N))
  ∧ df_len (Library.library_params self') = S N
  ∧ df_index (Library.library_params self') = Z.of_nat <$> seq 0 (S N)
  ∧ (∀ i c, (i < N)%nat → c ∈ columns (Library.library_params self) →
       df_cell (Library.library_params self') i c
       = df_cell (Library.library_params self) i c)
  ∧ (∀ c, c ∈ columns params' →
       df_cell (Library.library_params self') N c = df_cell params' 0 c)
  ∧ Library.library_spectra self'
    = mkArr3 2 (length (Library.wav self))
        (slabs (Library.library_spectra self) ++ [[spectrum; u_spectrum]])
  ∧ Library.__len__ self' = S N
  ∧ Library.wav self' = Library.wav self
  ∧ Library.header self' = Library.header self
  ∧ Library.wavlim self' = Library.wavlim self.

(** Sequential calls of [insert], stopping at the first that raises. *)
Fixpoint insert_all (self : Library.t)
    (entries : list (DataFrame * list float * list float))
    : result Library.t :=
  match entries with
  | [] => Ok self
  | (params, spectrum, u_spectrum) :: entries' =>
      match Library.insert spectrum u_spectrum (self, params) with
      | (Ok _, (self', _)) => insert_all self' entries'
      | (Raise e, _) => Raise e
      end
  end.

(** Invariant 5: the labels of the table and its [lib_index] field both
    count the entries from 0. *)
Definition dense (lib : Library.t) : Prop :=
  "lib_index" ∈ columns (Library.library_params lib)
  ∧ df_index (Library.library_params lib)
    = Z.of_nat <$> seq 0 (Library.__len__ lib)
  ∧ ∀ i, (i < Library.__len__ lib)%nat →
      df_cell (Library.library_params lib) i "lib_index"
      = Some (SInt (Z.of_nat i)).

(** Writing the entries of a list one by one, the later over the earlier. *)
Definition write_all (l : list (string * scalar)) (m : gmap string scalar)
    : gmap string scalar :=
  foldl (λ a kv, <[kv.1 := kv.2]> a) m l.

(** What [to_hdf] leaves in the two files. *)
Definition saved_params (self : Library.t) : hdf5 :=
  mkHdf5 ∅ {["library_params" := Library.library_params self]} ∅ ∅.

Definition saved_axis (self : Library.t) : hdf5 :=
  mkHdf5 (Library.header self) ∅ {["wav" := Library.wav self]} ∅.

Definition saved_spectra (self : Library.t) : hdf5 :=
  mkHdf5 (Library.header self) ∅ {["wav" := Library.wav self]}
    {["library_spectra" := Library.library_spectra self]}.

(** The entries of a library in position order: each row of the table,
    paired with its column names, and the slab at the same position. *)
Definition entries (self : Library.t)
    : list (list (string * scalar) * list (list float)) :=
  zip_with
    (λ r slab, (zip (columns (Library.library_params self)) r.2, slab))
    (df_rows (Library.library_params self))
    (slabs (Library.library_spectra self)).

(** The labels of the table are the positions of its rows. *)
Definition positional (self : Library.t) : Prop :=
  df_index (Library.library_params self)
  = Z.of_nat <$> seq 0 (df_len (Library.library_params self)).

(** * Sample data *)

(** The 19 cells of one star, in the order of [LIB_COLS]. *)
Definition star_cells (lib_index : Z) : list scalar :=
  [SInt lib_index; SStr "HD 10700"; SStr "rj122.92"; SStr "rj122.92";
   SFloat 5344; SFloat 50; SFloat 0.75; SFloat 0.0625; SFloat 4.5;
   SFloat 0.125; SFloat (-0.5); SFloat 0.0625; SFloat 0.75; SFloat 0.0625;
   SFloat 9.5; SFloat 1.5; SFloat 1.5; SStr "Brewer"; SStr "HD 10700"].

(** A one-row frame, as passed to [insert]; label and index are arbitrary. *)
Definition star_row : DataFrame := mkDataFrame LIB_COLS [(7, star_cells 99)].

(** An axis of two samples, a spectrum and an uncertainty on it. *)
Definition wav2 : list float := [5000; 5000.5]%float.

Definition flux2 : list float := [0.75; 1.25]%float.

Definition u_flux2 : list float := [0.0625; 0.0625]%float.

(** One star: a table of one row labelled 0 and a tensor of shape (1,2,2). *)
Definition table1 : DataFrame := mkDataFrame LIB_COLS [(0, star_cells 0)].

Definition tensor1 : ndarray3 := mkArr3 2 2 [[flux2; u_flux2]].

Definition header1 : gmap string scalar :=
  <["telescope" := SStr "Keck"]> {["date_created" := SStr "1999-12-31"]}.

(** The empty library over the axis [wav2]. *)
Definition empty2 : Library.t :=
  Library.mk (mkDataFrame LIB_COLS []) wav2 (np_empty0 2 2)
    {["date_created" := SStr "2016-07-01"]} None.

(** The empty library over an axis without samples. *)
Definition empty0 : Library.t :=
  Library.mk (mkDataFrame LIB_COLS []) [] (np_empty0 2 0)
    {["date_created" := SStr "2016-07-01"]} None.

(** A library of [n] stars over the axis [wav2]. *)
Definition stars_table (n : nat) : DataFrame :=
  mkDataFrame LIB_COLS
    ((λ i, (Z.of_nat i, star_cells (Z.of_nat i))) <$> seq 0 n).

Definition stars_tensor (n : nat) : ndarray3 :=
  mkArr3 2 2 (replicate n [flux2; u_flux2]).

Definition stars (n : nat) : Library.t :=
  Library.mk (stars_table n) wav2 (stars_tensor n)
    {["date_created" := SStr "2016-07-01"]} None.

(** A table of three rows whose labels are 0, 5 and 9. *)
Definition table_gaps : DataFrame :=
  mkDataFrame LIB_COLS
    [(0, star_cells 0); (5, star_cells 1); (9, star_cells 2)].

(** A tensor of shape (1, 1, 2): the uncertainty plane is missing. *)
Definition tensor_flat : ndarray3 := mkArr3 1 2 [[flux2]].

(** A frame of two rows, and the library of one star whose row is labelled
    -2. *)
Definition two_rows : DataFrame :=
  mkDataFrame LIB_COLS [(0, star_cells 0); (1, star_cells 0)].

Definition star_below : Library.t :=
  Library.mk (mkDataFrame LIB_COLS [(-2, star_cells (-2))]) wav2 tensor1
    {["date_created" := SStr "2016-07-01"]} None.

(** An axis of [n] samples from [x] in steps of 0.5, and the library of one
    star over 6250 samples. *)
Fixpoint ramp (n : nat) (x : float) : list float :=
  match n with
  | O => []
  | S n' => x :: ramp n' (x + 0.5)%float
  end.

Definition wide_wav : list float := ramp (Z.to_nat 6250) 5000%float.

Definition wide_tensor : ndarray3 :=
  mkArr3 2 (Z.to_nat 6250)
    [[replicate (Z.to_nat 6250) 1%float;
      replicate (Z.to_nat 6250) 0.0625%float]].

Definition wide : Library.t :=
  Library.mk table1 wide_wav wide_tensor header1 (Some (5000, 5010)%float).

(** A table of one row whose [lib_index] field is 0 and whose index label
    is 5. *)
Definition table_label5 : DataFrame :=
  mkDataFrame LIB_COLS [(5, star_cells 0)].

(** * Properties *)

(** ** Loops of assertions *)

Section loops.
Context {A : Type} (p : A → bool) (msg : A → string).

(** A loop of assertions passes when every element passes, and otherwise
    raises with the message of an element that fails. *)
Lemma for_assert_cases (l : list A) :
  (for_ l (λ x, assert_ (p x) (msg x)) = Ok () ∧ ∀ x, x ∈ l → p x = true)
  ∨ (∃ x, x ∈ l ∧ p x = false
          ∧ for_ l (λ x, assert_ (p x) (msg x))
            = Raise (AssertionError (msg x))).
Proof.
  induction l as [|a l IH]; simpl.
  - left. split; [done|]. intros x Hx. by apply elem_of_nil in Hx.
  - destruct (p a) eqn:Ha; simpl.
    + destruct IH as [[-> Hall]|(x & Hx & Hpx & ->)].
      * left. split; [done|]. intros x [->|Hx]%elem_of_cons; auto.
      * right. exists x. split_and!; [by right|done..].
    + right. exists a. split_and!; [by left|done..].
Qed.

Lemma for_assert_Ok (l : list A) :
  (∀ x, x ∈ l → p x = true) →
  for_ l (λ x, assert_ (p x) (msg x)) = Ok ().
Proof.
  intros Hall. destruct (for_assert_cases l) as [[-> _]|(x & Hx & Hpx & _)].
  - done.
  - rewrite (Hall x Hx) in Hpx. discriminate.
Qed.
End loops.

#[local] Arguments for_ : simpl never.
#[local] Arguments chunks_fit : simpl never.

(** ** Construction *)

(** The outcomes of the full path, check by check, in the order of the
    source: a later check is reached only when the earlier ones pass. *)
Lemma init_full_cases today wav sp pa h wl :
  let r := Library.__init__ today wav (Some sp) (Some pa) h wl in
  (∃ col, col ∈ LIB_COLS ∧ (col ∉ columns pa)
          ∧ r = Raise (AssertionError (msg_table_col col)))
  ∨ (has_required_fields pa ∧ df_len pa ≠ len3 sp
     ∧ r = Raise (AssertionError msg_length))
  ∨ (has_required_fields pa ∧ df_len pa = len3 sp
     ∧ ∃ i, i ∈ df_index pa ∧ ¬ (i < Z.of_nat (len3 sp))
            ∧ r = Raise (AssertionError (msg_index i)))
  ∨ (has_required_fields pa ∧ df_len pa = len3 sp
     ∧ (∀ i, i ∈ df_index pa → i < Z.of_nat (len3 sp))
     ∧ ¬ (dim1 sp = 2%nat ∧ dim2 sp = length wav)
     ∧ r = Raise (AssertionError (msg_shape (len3 sp) (length wav))))
  ∨ (has_required_fields pa ∧ df_len pa = len3 sp
     ∧ (∀ i, i ∈ df_index pa → i < Z.of_nat (len3 sp))
     ∧ dim1 sp = 2%nat ∧ dim2 sp = length wav
     ∧ r = Ok (Library.mk pa wav sp (<["date_created" := SStr today]> h) wl)).
Proof.
  intros r. subst r. unfold Library.__init__.
  destruct (for_assert_cases
              (λ col, bool_decide (col ∈ columns pa)) msg_table_col LIB_COLS)
    as [[-> Hcols]|(col & Hcol & Hp & ->)]; simpl.
  2:{ left. exists col. apply bool_decide_eq_false in Hp. done. }
  right.
  assert (has_required_fields pa) as Hreq.
  { intros col Hcol. specialize (Hcols col Hcol).
    by apply bool_decide_eq_true in Hcols. }
  destruct (decide (df_len pa = len3 sp)) as [Hlen|Hlen].
  2:{ left. rewrite (bool_decide_eq_false_2 _ Hlen). done. }
  right. rewrite (bool_decide_eq_true_2 _ Hlen). simpl.
  destruct (for_assert_cases
              (λ i, bool_decide (i < Z.of_nat (len3 sp))) msg_index
              (df_index pa))
    as [[-> Hidx]|(i & Hi & Hp & ->)]; simpl.
  2:{ left. split_and!; [done..|]. exists i.
      apply bool_decide_eq_false in Hp. done. }
  right.
  assert (∀ i, i ∈ df_index pa → i < Z.of_nat (len3 sp)) as Hidx'.
  { intros i Hi. specialize (Hidx i Hi).
    by apply bool_decide_eq_true in Hidx. }
  destruct (decide (dim1 sp = 2%nat)) as [H1|H1];
    [rewrite (bool_decide_eq_true_2 _ H1)
    |rewrite (bool_decide_eq_false_2 _ H1)]; simpl.
  2:{ left. split_and!; [done..| |done]. intros [? ?]. done. }
  destruct (decide (dim2 sp = length wav)) as [H2|H2];
    [rewrite (bool_decide_eq_true_2 _ H2)
    |rewrite (bool_decide_eq_false_2 _ H2)]; simpl.
  2:{ left. split_and!; [done..| |done]. intros [? ?]. done. }
  right. done.
Qed.

(** C4 as stated fails: the constructor never reads the [lib_index] field.
    A table of one row whose [lib_index] is 0 and whose index label is 5,
    with a tensor of shape (1, 2, 2) over an axis of two samples, satisfies
    the four invariants as the data model words them (equal lengths, the
    row's library index in [0, 1), the shape, the 19 fields), and full-path
    construction raises the out-of-bounds assertion error for the label. *)
Lemma init_rejects_label_beyond_length :
  df_len table_label5 = len3 tensor1
  ∧ df_cell table_label5 0 "lib_index" = Some (SInt 0)
  ∧ dim1 tensor1 = 2%nat ∧ dim2 tensor1 = length wav2
  ∧ has_required_fields table_label5
  ∧ Library.__init__ "2016-07-01" wav2 (Some tensor1) (Some table_label5) ∅
      None
    = Raise (AssertionError
               "Error: Index 5 is out of bounds in library_spectra").
Proof.
  split_and!; try reflexivity.
  intros col Hcol. exact Hcol.
Qed.

(** C4, amended.  Full-path construction from a table, an axis and a tensor
    that satisfy invariants 1 to 4 with invariant 2 read on the index labels
    of the table's rows (the table and the tensor have the same length N,
    every index label of the table lies in [0, N), the tensor has shape
    (N, 2, W) with W the length of the axis, and the table has the 19
    required fields) succeeds; the library has length N and holds the
    table, the axis and the tensor as given.  The [lib_index] field of the
    rows is not examined. *)
Theorem init_full_valid today wav sp pa h wl :
  df_len pa = len3 sp →
  (∀ i, i ∈ df_index pa → 0 ≤ i < Z.of_nat (len3 sp)) →
  dim1 sp = 2%nat → dim2 sp = length wav →
  has_required_fields pa →
  ∃ lib,
    Library.__init__ today wav (Some sp) (Some pa) h wl = Ok lib
    ∧ Library.__len__ lib = df_len pa
    ∧ Library.library_params lib = pa
    ∧ Library.wav lib = wav
    ∧ Library.library_spectra lib = sp.
Proof.
  intros Hlen Hidx H1 H2 Hreq.
  destruct (init_full_cases today wav sp pa h wl)
    as [(col & Hcol & Hn & _)
       |[(_ & Hn & _)
       |[(_ & _ & i & Hi & Hn & _)
       |[(_ & _ & _ & Hn & _)
       |(_ & _ & _ & _ & _ & ->)]]]].
  - destruct Hn. by apply Hreq.
  - done.
  - destruct Hn. by apply Hidx.
  - destruct Hn. done.
  - eexists. split; [done|]. unfold Library.__len__. simpl. done.
Qed.

Lemma init_full_valid_witness :
  ∃ lib,
    Library.__init__ "2016-07-01" wav2 (Some tensor1) (Some table1) header1
                     None = Ok lib
    ∧ Library.__len__ lib = df_len table1
    ∧ Library.library_params lib = table1
    ∧ Library.wav lib = wav2
    ∧ Library.library_spectra lib = tensor1.
Proof.
  apply (init_full_valid "2016-07-01" wav2 tensor1 table1 header1 None).
  - reflexivity.
  - intros i Hi. apply list_elem_of_singleton in Hi. subst i.
    unfold len3, tensor1. simpl. lia.
  - reflexivity.
  - reflexivity.
  - intros col Hcol. exact Hcol.
Defined.

(** C5.  The constructor's index check is [assert i < num_spec] only: a
    table whose row carries the index -2 (as label and in its [lib_index]
    field), with a tensor of one entry, passes every check and the library
    is built, although -2 is outside [0, 1). *)
Theorem init_accepts_index_below_zero :
  Library.__init__ "2016-07-01" wav2 (Some tensor1)
    (Some (mkDataFrame LIB_COLS [(-2, star_cells (-2))])) ∅ None
  = Ok (Library.mk (mkDataFrame LIB_COLS [(-2, star_cells (-2))]) wav2
          tensor1 {["date_created" := SStr "2016-07-01"]} None).
Proof. vm_compute. reflexivity. Qed.



(** ** Frames *)

Lemma col_pos_elem_of cols c :
  c ∈ cols → ∃ j, col_pos cols c = Some j ∧ cols !! j = Some c.
Proof.
  intros Hc. unfold col_pos.
  destruct (list_find_elem_of (λ c', c' = c) cols c Hc eq_refl)
    as [[j c'] Hfind].
  rewrite Hfind. simpl. exists j. split; [done|].
  apply list_find_Some in Hfind as (Hj & -> & _). done.
Qed.

Lemma cell_of_is_Some cols cells c :
  c ∈ cols → length cells = length cols → is_Some (cell_of cols cells c).
Proof.
  intros Hc Hlen. destruct (col_pos_elem_of cols c Hc) as (j & Hpos & Hj).
  unfold cell_of. rewrite Hpos. simpl.
  apply lookup_lt_is_Some. rewrite Hlen. by eapply lookup_lt_Some.
Qed.

Lemma cell_of_reindex new_cols cols cells c :
  c ∈ new_cols →
  cell_of new_cols (reindex new_cols cols cells) c
  = Some (default NaN (cell_of cols cells c)).
Proof.
  intros Hc. destruct (col_pos_elem_of new_cols c Hc) as (j & Hpos & Hj).
  unfold cell_of at 1. rewrite Hpos. simpl.
  unfold reindex. rewrite list_lookup_fmap, Hj. done.
Qed.

Lemma cell_of_reindex_wf new_cols cols cells c :
  c ∈ new_cols → c ∈ cols → length cells = length cols →
  cell_of new_cols (reindex new_cols cols cells) c = cell_of cols cells c.
Proof.
  intros Hnew Hc Hlen. rewrite cell_of_reindex by done.
  by destruct (cell_of_is_Some cols cells c Hc Hlen) as [v ->].
Qed.

Lemma imap_label_fst {A} (f : nat → Z) (l : list A) :
  (imap (λ i r, (f i, r)) l).*1 = f <$> seq 0 (length l).
Proof.
  revert f. induction l as [|x l IH]; intros f; [done|].
  simpl. f_equal. rewrite <-fmap_S_seq, <-list_fmap_compose.
  apply (IH (f ∘ S)).
Qed.

Lemma concat_columns_l a b c :
  c ∈ columns a → c ∈ columns (concat_ignore_index a b).
Proof. intros Hc. simpl. apply elem_of_app. by left. Qed.

Lemma concat_columns_r a b c :
  c ∈ columns b → c ∈ columns (concat_ignore_index a b).
Proof.
  intros Hc. simpl. apply elem_of_app.
  destruct (decide (c ∈ columns a)); [by left|right].
  by apply list_elem_of_filter.
Qed.

Lemma df_len_concat a b :
  df_len (concat_ignore_index a b) = (df_len a + df_len b)%nat.
Proof.
  unfold df_len. simpl.
  by rewrite length_imap, length_app, !length_fmap.
Qed.

Lemma df_index_concat a b :
  df_index (concat_ignore_index a b)
  = Z.of_nat <$> seq 0 (df_len a + df_len b).
Proof.
  unfold df_index. simpl. rewrite imap_label_fst.
  by rewrite length_app, !length_fmap.
Qed.

Lemma df_wf_concat a b : df_wf (concat_ignore_index a b).
Proof.
  unfold df_wf. simpl. apply Forall_forall. intros [label cells] Hin.
  apply elem_of_lookup_imap in Hin as (i & r & [= -> ->] & Hr).
  apply list_elem_of_lookup_2, elem_of_app in Hr. simpl.
  destruct Hr as [Hr|Hr];
    apply list_elem_of_fmap in Hr as (r' & -> & _);
    unfold reindex; by rewrite length_fmap.
Qed.

Lemma df_cell_concat_l a b i c :
  df_wf a → (i < df_len a)%nat → c ∈ columns a →
  df_cell (concat_ignore_index a b) i c = df_cell a i c.
Proof.
  intros Hwf Hi Hc. unfold df_cell.
  destruct (lookup_lt_is_Some_2 (df_rows a) i Hi) as [r Hr].
  rewrite Hr. cbn [df_rows concat_ignore_index].
  rewrite list_lookup_imap, lookup_app_l by (by rewrite length_fmap).
  rewrite list_lookup_fmap, Hr. simpl.
  apply cell_of_reindex_wf; [by apply elem_of_app; left|done|].
  by apply (proj1 (Forall_forall _ _) Hwf r), list_elem_of_lookup_2 with i.
Qed.

Lemma df_cell_concat_r a b j c :
  df_wf b → (j < df_len b)%nat → c ∈ columns b →
  df_cell (concat_ignore_index a b) (df_len a + j) c = df_cell b j c.
Proof.
  intros Hwf Hj Hc. unfold df_cell.
  destruct (lookup_lt_is_Some_2 (df_rows b) j Hj) as [r Hr].
  rewrite Hr. cbn [df_rows concat_ignore_index].
  rewrite list_lookup_imap, lookup_app_r
    by (rewrite length_fmap; unfold df_len; lia).
  rewrite length_fmap.
  replace (df_len a + j - length (df_rows a))%nat with j
    by (unfold df_len; lia).
  rewrite list_lookup_fmap, Hr. simpl.
  apply cell_of_reindex_wf; [by apply (concat_columns_r a b)|done|].
  by apply (proj1 (Forall_forall _ _) Hwf r), list_elem_of_lookup_2 with j.
Qed.

Lemma columns_set_column c v df : columns (set_column c v df) = columns df.
Proof. unfold set_column. by destruct (col_pos (columns df) c). Qed.

Lemma df_len_set_column c v df : df_len (set_column c v df) = df_len df.
Proof.
  unfold set_column, df_len. destruct (col_pos (columns df) c); [|done].
  simpl. by rewrite length_fmap.
Qed.

Lemma df_wf_set_column c v df : df_wf df → df_wf (set_column c v df).
Proof.
  unfold set_column, df_wf. destruct (col_pos (columns df) c); [|done].
  simpl. intros Hwf. apply Forall_fmap. eapply Forall_impl; [exact Hwf|].
  intros r Hr. simpl. by rewrite length_insert.
Qed.

Lemma df_cell_set_column c v df i :
  df_wf df → c ∈ columns df → (i < df_len df)%nat →
  df_cell (set_column c v df) i c = Some v.
Proof.
  intros Hwf Hc Hi.
  destruct (col_pos_elem_of (columns df) c Hc) as (j & Hpos & Hj).
  destruct (lookup_lt_is_Some_2 (df_rows df) i Hi) as [r Hr].
  unfold df_cell, set_column. rewrite Hpos. simpl.
  rewrite list_lookup_fmap, Hr. simpl.
  unfold cell_of. rewrite Hpos. simpl.
  apply list_lookup_insert_eq.
  rewrite (proj1 (Forall_forall _ _) Hwf r)
    by (by apply list_elem_of_lookup_2 with i).
  by eapply lookup_lt_Some.
Qed.

(** ** Insertion *)

(** The outcomes of [insert], check by check. *)
Lemma insert_cases spectrum u_spectrum self params :
  let r := Library.insert spectrum u_spectrum (self, params) in
  (df_len (Library.library_params self) ≠ len3 (Library.library_spectra self)
   ∧ r = (Raise (AssertionError msg_length), (self, params)))
  ∨ (df_len (Library.library_params self)
       = len3 (Library.library_spectra self)
     ∧ ∃ col, col ∈ LIB_COLS ∧ (col ∉ columns params)
         ∧ r = (Raise (AssertionError (msg_row_col col)), (self, params)))
  ∨ (df_len (Library.library_params self)
       = len3 (Library.library_spectra self)
     ∧ has_required_fields params
     ∧ length spectrum ≠ length (Library.wav self)
     ∧ r = (Raise (AssertionError msg_spectrum), (self, params)))
  ∨ (df_len (Library.library_params self)
       = len3 (Library.library_spectra self)
     ∧ has_required_fields params
     ∧ length spectrum = length (Library.wav self)
     ∧ r = match np_vstack (Library.library_spectra self) spectrum
                   u_spectrum with
           | Ok stacked =>
               (Ok (),
                (Library.mk
                   (Library.library_params (table_appended self params))
                   (Library.wav self) stacked (Library.header self)
                   (Library.wavlim self),
                 stamped self params))
           | Raise e => (Raise e, (table_appended self params,
                                   stamped self params))
           end).
Proof.
  intros r. subst r.
  unfold Library.insert, mbind, M_bind, get, lift, put. simpl.
  destruct (decide (df_len (Library.library_params self)
                    = len3 (Library.library_spectra self))) as [Hlen|Hlen].
  2:{ left. rewrite (bool_decide_eq_false_2 _ Hlen). done. }
  right. rewrite (bool_decide_eq_true_2 _ Hlen). simpl.
  destruct (for_assert_cases
              (λ col, bool_decide (col ∈ columns params)) msg_row_col LIB_COLS)
    as [[Hfor Hcols]|(col & Hcol & Hp & Hfor)];
    unfold mbind in Hfor; rewrite Hfor; clear Hfor; simpl.
  2:{ left. split; [done|]. exists col.
      apply bool_decide_eq_false in Hp. done. }
  right.
  assert (has_required_fields params) as Hreq.
  { intros col Hcol. specialize (Hcols col Hcol).
    by apply bool_decide_eq_true in Hcols. }
  destruct (decide (length spectrum = length (Library.wav self)))
    as [Hsp|Hsp].
  2:{ left. rewrite (bool_decide_eq_false_2 _ Hsp). done. }
  right. rewrite (bool_decide_eq_true_2 _ Hsp). simpl.
  split_and!; [done..|].
  unfold stamped, table_appended.
  destruct (np_vstack (Library.library_spectra self) spectrum u_spectrum);
    done.
Qed.

(** The three messages of [insert] tell the three checks apart. *)
Lemma insert_messages_distinct :
  msg_length ≠ msg_spectrum
  ∧ ∀ col, col ∈ LIB_COLS →
      msg_row_col col ≠ msg_length ∧ msg_row_col col ≠ msg_spectrum.
Proof.
  split; [discriminate|].
  apply Forall_forall. unfold LIB_COLS.
  repeat (constructor;
          [split; intros H; vm_compute in H; discriminate H|]).
  constructor.
Qed.

Example empty2_constructed :
  Library.__init__ "2016-07-01" wav2 None None ∅ None = Ok empty2.
Proof. reflexivity. Qed.

(** C7.  When a precondition of [insert] is violated (the table and the
    tensor differ in length, the row lacks a required field, or the spectrum
    has not the length of the axis), the call raises an assertion error
    whose message is the one of a check that is violated, and the library
    and the caller's row are as before the call. *)
Theorem insert_invalid_unchanged spectrum u_spectrum self params :
  df_len (Library.library_params self) ≠ len3 (Library.library_spectra self)
  ∨ (∃ col, col ∈ LIB_COLS ∧ (col ∉ columns params))
  ∨ length spectrum ≠ length (Library.wav self) →
  ∃ msg,
    Library.insert spectrum u_spectrum (self, params)
    = (Raise (AssertionError msg), (self, params))
    ∧ ((msg = msg_length
        ∧ df_len (Library.library_params self)
          ≠ len3 (Library.library_spectra self))
       ∨ (∃ col, msg = msg_row_col col ∧ col ∈ LIB_COLS
                 ∧ (col ∉ columns params))
       ∨ (msg = msg_spectrum
          ∧ length spectrum ≠ length (Library.wav self))).
Proof.
  intros Hbad.
  destruct (insert_cases spectrum u_spectrum self params)
    as [(Hlen & ->)
       |[(_ & col & Hcol & Hn & ->)
       |[(_ & _ & Hsp & ->)
       |(Hlen & Hreq & Hsp & _)]]].
  - exists msg_length. split; [done|]. by left.
  - exists (msg_row_col col). split; [done|]. right. left. by exists col.
  - exists msg_spectrum. split; [done|]. right. by right.
  - destruct Hbad as [?|[(col & Hcol & Hn)|?]]; [done| |done].
    destruct Hn. by apply Hreq.
Qed.

Lemma insert_invalid_unchanged_witness :
  ∃ msg,
    Library.insert [0.75%float] [0.0625%float] (empty2, star_row)
    = (Raise (AssertionError msg), (empty2, star_row))
    ∧ ((msg = msg_length
        ∧ df_len (Library.library_params empty2)
          ≠ len3 (Library.library_spectra empty2))
       ∨ (∃ col, msg = msg_row_col col ∧ col ∈ LIB_COLS
                 ∧ (col ∉ columns star_row))
       ∨ (msg = msg_spectrum
          ∧ length [0.75%float] ≠ length (Library.wav empty2))).
Proof.
  apply (insert_invalid_unchanged [0.75%float] [0.0625%float] empty2
           star_row).
  right. right. simpl. lia.
Defined.

Lemma lib_index_required : "lib_index" ∈ LIB_COLS.
Proof. by left. Qed.

Lemma insert_valid self params spectrum u_spectrum :
  consistent self → df_wf (Library.library_params self) →
  valid_entry (length (Library.wav self)) (params, spectrum, u_spectrum) →
  ∃ self',
    Library.insert spectrum u_spectrum (self, params)
    = (Ok (), (self', stamped self params))
    ∧ Library.library_params self'
      = concat_ignore_index (Library.library_params self)
          (stamped self params)
    ∧ appended self (stamped self params) spectrum u_spectrum self'.
Proof.
  intros (Hlen & Hd1 & Hd2) Hwf (Hwfp & Hone & Hreq & Hs & Hu).
  simpl in Hwfp, Hone, Hreq, Hs, Hu.
  destruct (insert_cases spectrum u_spectrum self params)
    as [(Hn & _)|[(_ & col & Hcol & Hn & _)|[(_ & _ & Hn & _)
       |(_ & _ & _ & Hr)]]]; [done|by destruct Hn; apply Hreq|done|].
  cbv zeta in Hr. rewrite Hr. clear Hr.
  unfold np_vstack.
  rewrite (bool_decide_eq_true_2 (length spectrum = length u_spectrum))
    by congruence.
  rewrite (bool_decide_eq_true_2 (_ ∧ _)) by (split; congruence).
  simpl. eexists. split; [reflexivity|]. split; [reflexivity|].
  assert (df_wf (stamped self params)) as Hwfs
    by by apply df_wf_set_column.
  assert (df_len (stamped self params) = 1%nat) as Hlens
    by (unfold stamped; by rewrite df_len_set_column).
  unfold appended, Library.__len__, len3. simpl.
  set (N := length (slabs (Library.library_spectra self))).
  assert (df_len (Library.library_params self) = N) as HN by done.
  split_and!; try done.
  - apply df_cell_set_column; [done| |lia].
    apply Hreq, lib_index_required.
  - rewrite df_len_concat. lia.
  - rewrite df_index_concat, Hlens, HN.
    by replace (N + 1)%nat with (S N) by lia.
  - intros i c Hi Hc. apply df_cell_concat_l; [done|lia|done].
  - intros c Hc. rewrite <-HN.
    replace (df_len (Library.library_params self))
      with (df_len (Library.library_params self) + 0)%nat by lia.
    apply df_cell_concat_r; [done|lia|done].
  - by rewrite Hd1, Hd2.
  - rewrite length_app. simpl. lia.
Qed.

Lemma insert_all_valid W entries :
  Forall (valid_entry W) entries →
  ∀ self,
    length (Library.wav self) = W →
    consistent self → df_wf (Library.library_params self) → dense self →
    ∃ lib,
      insert_all self entries = Ok lib
      ∧ consistent lib ∧ df_wf (Library.library_params lib) ∧ dense lib
      ∧ Library.__len__ lib = (Library.__len__ self + length entries)%nat
      ∧ Library.wav lib = Library.wav self.
Proof.
  induction 1 as [|[[params spectrum] u_spectrum] entries Hentry _ IH];
    intros self HW Hcons Hwf (Hcol & Hidx & Hcells).
  { exists self. simpl. split_and!; try done; lia. }
  rewrite <-HW in Hentry.
  destruct (insert_valid self params spectrum u_spectrum Hcons Hwf Hentry)
    as (self' & Hins & Htable
        & Hstamp & Hlen' & Hidx' & Hold & Hnew & Hsp' & Hlen3' & Hwav'
        & _ & _).
  simpl. rewrite Hins.
  assert (consistent self') as Hcons'.
  { unfold consistent.
    rewrite Hlen'. unfold Library.__len__ in Hlen3'. rewrite Hlen3'.
    rewrite Hsp', Hwav'. done. }
  assert (df_wf (Library.library_params self')) as Hwf'.
  { rewrite Htable. apply df_wf_concat. }
  assert (dense self') as Hdense'.
  { unfold dense. rewrite Hlen3'. split_and!.
    - rewrite Htable. by apply concat_columns_l.
    - done.
    - intros i Hi.
      destruct (decide (i = len3 (Library.library_spectra self))) as [->|Hne].
      + rewrite Hnew; [done|].
        unfold stamped. rewrite columns_set_column.
        apply Hentry, lib_index_required.
      + rewrite Hold; [|lia|done].
        apply Hcells. unfold Library.__len__. lia. }
  rewrite <-Hwav' in HW.
  destruct (IH self' HW Hcons' Hwf' Hdense')
    as (lib & -> & ? & ? & ? & Hlen & Hwav).
  exists lib. split_and!; try done.
  - rewrite Hlen, Hlen3'. unfold Library.__len__. simpl. lia.
  - congruence.
Qed.




(** ** Container protocol *)

(** Membership is membership among the labels of the table. *)
Lemma contains_spec self index :
  Library.__contains__ self index = true
  ↔ index ∈ df_index (Library.library_params self).
Proof. unfold Library.__contains__. apply bool_decide_eq_true. Qed.

(** In a library built by appending, the labels are 0, ..., len - 1. *)
Lemma contains_dense self index :
  dense self →
  Library.__contains__ self index = true
  ↔ 0 ≤ index < Z.of_nat (Library.__len__ self).
Proof.
  intros (_ & Hidx & _). rewrite contains_spec, Hidx.
  rewrite list_elem_of_fmap. setoid_rewrite elem_of_seq. split.
  - intros (i & -> & Hi). lia.
  - intros Hi. exists (Z.to_nat index). lia.
Qed.

Lemma df_loc_present df label :
  label ∈ df_index df → ∃ row, df_loc df label = Ok row.
Proof.
  intros Hin. unfold df_index in Hin.
  apply list_elem_of_fmap in Hin as (r & -> & Hr).
  destruct (list_find_elem_of (λ r', r'.1 = r.1) (df_rows df) r Hr eq_refl)
    as [[i r'] Hfind].
  unfold df_loc. rewrite Hfind. by eexists.
Qed.

(** Indexed lookup never returns: an absent index raises KeyError, and for
    a present one the row is found and the tensor access raises. *)
Lemma getitem_outcome self index :
  Library.__getitem__ self index
  = if Library.__contains__ self index
    then Raise (AttributeError "loc") else Raise KeyError.
Proof.
  unfold Library.__getitem__.
  destruct (Library.__contains__ self index) eqn:Hc; [|done].
  apply contains_spec in Hc.
  destruct (df_loc_present _ _ Hc) as [row ->]. done.
Qed.

(** C6.  On the library built by one [insert] on the empty library, index 0
    is present, and [library[0]] raises AttributeError: the spectrum pair is
    read as [self.library_spectra.loc[index]], and a numpy array has no
    [loc].  An absent index, here 1, raises KeyError. *)
Theorem getitem_present_raises :
  match insert_all empty2 [(star_row, flux2, u_flux2)] with
  | Ok lib =>
      Library.__len__ lib = 1%nat
      ∧ Library.__contains__ lib 0 = true
      ∧ Library.__getitem__ lib 0 = Raise (AttributeError "loc")
      ∧ Library.__contains__ lib 1 = false
      ∧ Library.__getitem__ lib 1 = Raise KeyError
  | Raise _ => False
  end.
Proof. vm_compute. split_and!; reflexivity. Qed.

(** ** Saving *)

Lemma for_cons {F : Type → Type} `{!MBind F, !MRet F} {A : Type}
    (x : A) (l : list A) (body : A → F unit) :
  for_ (x :: l) body = (body x ;; for_ l body).
Proof. reflexivity. Qed.

Lemma write_all_lookup l (m : gmap string scalar) key :
  NoDup l.*1 →
  write_all l m !! key
  = match (list_to_map l : gmap string scalar) !! key with
    | Some v => Some v
    | None => m !! key
    end.
Proof.
  revert m. induction l as [|[k v] l IH]; intros m Hnd; simpl.
  { by rewrite lookup_empty. }
  apply NoDup_cons in Hnd as [Hk Hnd]. unfold write_all in *. simpl.
  rewrite IH by done.
  destruct (decide (k = key)) as [->|Hne].
  - rewrite lookup_insert_eq.
    rewrite (not_elem_of_list_to_map_1 _ key Hk).
    by rewrite lookup_insert_eq.
  - rewrite (lookup_insert_ne (list_to_map l)) by done.
    by rewrite lookup_insert_ne.
Qed.

Lemma write_all_map_to_list (m : gmap string scalar) :
  write_all (map_to_list m) ∅ = m.
Proof.
  apply map_eq. intros key.
  rewrite write_all_lookup by apply NoDup_fst_map_to_list.
  rewrite list_to_map_to_list, lookup_empty. by destruct (m !! key).
Qed.

(** The loop over the header keys leaves the attributes written one by
    one in the open file. *)
Lemma for_set_attr path l f (fs : gmap string hdf5) :
  fs !! path = Some f →
  for_ l (λ kv : string * scalar, h5_write path (set_attr kv.1 kv.2)) fs
  = (Ok (),
     <[path := mkHdf5 (write_all l (attrs f)) (frames f) (arrays1 f)
                 (arrays3 f)]> fs).
Proof.
  revert f fs. induction l as [|[k v] l IH]; intros f fs Hf.
  - unfold for_, mret, M_ret. simpl. f_equal.
    destruct f. simpl. by rewrite insert_id.
  - rewrite for_cons. unfold mbind, M_bind. unfold h5_write at 1.
    rewrite Hf.
    rewrite (IH (set_attr k v f)) by apply lookup_insert_eq.
    by rewrite insert_insert_eq.
Qed.

(** The outcomes of [to_hdf]: the table, the header and the axis are
    written in any case; the tensor is written when the chunk shape can be
    computed and fits. *)
Lemma to_hdf_outcome self paramfile specfile (fs : gmap string hdf5) :
  let fs1 := <[paramfile := saved_params self]> fs in
  let sp := Library.library_spectra self in
  Library.to_hdf self paramfile specfile fs
  = match nbytes_col0 sp with
    | Raise e => (Raise e, <[specfile := saved_axis self]> fs1)
    | Ok nbytes =>
        match int_truediv Library.target_chunk_bytes nbytes with
        | Raise e => (Raise e, <[specfile := saved_axis self]> fs1)
        | Ok chunk_col =>
            if chunks_fit (shape3 sp) (Z.of_nat (len3 sp), 2, chunk_col)
            then (Ok (), <[specfile := saved_spectra self]> fs1)
            else (Raise ValueError, <[specfile := saved_axis self]> fs1)
        end
    end.
Proof.
  intros fs1 sp. unfold Library.to_hdf.
  unfold mbind at 1, M_bind at 1. unfold DataFrame_to_hdf at 1.
  fold (saved_params self). fold fs1.
  unfold mbind at 1, M_bind at 1. unfold h5py_File_w at 1.
  unfold mbind at 1, M_bind at 1.
  rewrite (for_set_attr specfile _ hdf5_new) by apply lookup_insert_eq.
  rewrite insert_insert_eq. simpl. rewrite write_all_map_to_list.
  unfold mbind at 1, M_bind at 1. unfold h5_write at 1.
  rewrite lookup_insert_eq, insert_insert_eq.
  unfold set_array1. simpl. rewrite insert_empty. fold (saved_axis self).
  unfold mbind at 1, M_bind at 1. unfold lift at 1. fold sp.
  destruct (nbytes_col0 sp) as [nbytes|e]; [|done].
  unfold mbind at 1, M_bind at 1. unfold lift at 1.
  destruct (int_truediv Library.target_chunk_bytes nbytes)
    as [chunk_col|e]; [|done].
  unfold create_dataset, mbind, M_bind, lift.
  destruct (chunks_fit (shape3 sp) (Z.of_nat (len3 sp), 2, chunk_col));
    [|done].
  unfold h5_write. rewrite lookup_insert_eq, insert_insert_eq.
  unfold set_array3, saved_axis. simpl. rewrite insert_empty. done.
Qed.

Example empty0_constructed :
  Library.__init__ "2016-07-01" [] None None ∅ None = Ok empty0.
Proof. reflexivity. Qed.

(** C10 as stated fails for the empty library over an empty axis: the
    tensor has shape (0, 2, 0), and the subscript [[:, :, 0]] raises
    IndexError before anything is divided. *)
Lemma to_hdf_empty_axis_raises_IndexError :
  Library.__len__ empty0 = 0%nat
  ∧ (Library.to_hdf empty0 "params.h5" "spectra.h5" ∅).1 = Raise IndexError
  ∧ (Library.to_hdf empty0 "params.h5" "spectra.h5" ∅).1
    ≠ Raise ZeroDivisionError.
Proof.
  split; [reflexivity|]. rewrite to_hdf_outcome. simpl.
  split; [reflexivity|discriminate].
Qed.

(** C10, amended.  Saving a library with zero entries never completes: when
    the tensor has at least one wavelength column, the byte size of the
    (0, 2) slab is zero and dividing the chunk byte target by it raises
    ZeroDivisionError; when it has none, taking column 0 raises IndexError. *)
Theorem to_hdf_empty_raises self paramfile specfile
    (fs : gmap string hdf5) :
  Library.__len__ self = 0%nat →
  (Library.to_hdf self paramfile specfile fs).1
  = (if bool_decide (dim2 (Library.library_spectra self) = 0%nat)
     then Raise IndexError else Raise ZeroDivisionError)
  ∧ (Library.to_hdf self paramfile specfile fs).1 ≠ Ok ().
Proof.
  intros Hlen. unfold Library.__len__ in Hlen.
  rewrite to_hdf_outcome. cbv zeta. unfold nbytes_col0.
  destruct (bool_decide (dim2 (Library.library_spectra self) = 0%nat));
    [done|].
  rewrite Hlen. simpl. done.
Qed.

Lemma to_hdf_empty_raises_witness :
  (Library.to_hdf empty2 "params.h5" "spectra.h5" ∅).1
  = (if bool_decide (dim2 (Library.library_spectra empty2) = 0%nat)
     then Raise IndexError else Raise ZeroDivisionError)
  ∧ (Library.to_hdf empty2 "params.h5" "spectra.h5" ∅).1 ≠ Ok ().
Proof.
  apply (to_hdf_empty_raises empty2 "params.h5" "spectra.h5" ∅).
  reflexivity.
Defined.

Example to_hdf_empty2_ZeroDivisionError :
  (Library.to_hdf empty2 "params.h5" "spectra.h5" ∅).1
  = Raise ZeroDivisionError.
Proof. rewrite to_hdf_outcome. reflexivity. Qed.

Lemma stars_constructed n :
  Library.__init__ "2016-07-01" wav2 (Some (stars_tensor n))
    (Some (stars_table n)) ∅ None = Ok (stars n).
Proof.
  assert (df_len (stars_table n) = len3 (stars_tensor n)) as Hlen.
  { unfold df_len, len3. simpl.
    by rewrite length_fmap, length_seq, length_replicate. }
  destruct (init_full_cases "2016-07-01" wav2 (stars_tensor n)
              (stars_table n) ∅ None)
    as [(col & Hcol & Hn & _)
       |[(_ & Hn & _)
       |[(_ & _ & i & Hi & Hn & _)
       |[(_ & _ & _ & Hn & _)
       |(_ & _ & _ & _ & _ & Hr)]]]].
  - by destruct Hn.
  - done.
  - destruct Hn. unfold df_index in Hi. simpl in Hi.
    rewrite <-list_fmap_compose in Hi.
    apply list_elem_of_fmap in Hi as (j & -> & Hj%elem_of_seq).
    unfold len3. simpl. rewrite length_replicate. lia.
  - by destruct Hn.
  - cbv zeta in Hr. rewrite Hr. unfold stars. by rewrite insert_empty.
Qed.

(** When the tensor was not stored, loading finds no dataset. *)
Lemma read_hdf_without_tensor today self paramfile specfile
    (fs : gmap string hdf5) :
  paramfile ≠ specfile →
  read_hdf today
    (<[specfile := saved_axis self]> (<[paramfile := saved_params self]> fs))
    paramfile specfile None
  = Raise KeyError.
Proof.
  intros Hne. assert (specfile ≠ paramfile) as Hne' by congruence.
  unfold read_hdf, pd_read_hdf, h5py_File_r.
  rewrite (lookup_insert_ne _ specfile paramfile) by done.
  rewrite !lookup_insert_eq. simpl.
  rewrite lookup_singleton_eq. simpl.
  unfold getitem_key. simpl. rewrite lookup_singleton_eq. simpl.
  by rewrite lookup_empty.
Qed.

(** C2.  A library of 6251 stars is valid and not empty, and cannot be
    saved: a (6251, 2) slab of float64 takes 100016 bytes, the chunk column
    count is int(100000 / 100016) = 0, and [create_dataset] refuses the
    chunk shape (6251, 2, 0) with ValueError.  Nothing can be loaded back. *)
Theorem to_hdf_large_library_raises :
  let n := Z.to_nat 6251 in
  Library.__init__ "2016-07-01" wav2 (Some (stars_tensor n))
    (Some (stars_table n)) ∅ None = Ok (stars n)
  ∧ Library.__len__ (stars n) = n
  ∧ (Library.to_hdf (stars n) "params.h5" "spectra.h5" ∅).1
    = Raise ValueError
  ∧ read_hdf "2016-07-02"
      (Library.to_hdf (stars n) "params.h5" "spectra.h5" ∅).2
      "params.h5" "spectra.h5" None
    = Raise KeyError.
Proof.
  intros n. split; [apply stars_constructed|].
  split; [apply length_replicate|].
  assert (Library.to_hdf (stars n) "params.h5" "spectra.h5" ∅
          = (Raise ValueError,
             <["spectra.h5" := saved_axis (stars n)]>
               (<["params.h5" := saved_params (stars n)]> ∅))) as ->.
  { rewrite to_hdf_outcome.
    assert (len3 (Library.library_spectra (stars n)) = n) as Hlen
      by apply length_replicate.
    unfold nbytes_col0, int_truediv, chunks_fit, shape3. rewrite Hlen.
    unfold n. rewrite Z2Nat.id by lia. reflexivity. }
  split; [reflexivity|]. simpl.
  by apply read_hdf_without_tensor.
Qed.

(** The same happens to a small library over a short axis: for one star
    over two samples the chunk column count is 6250, more than the two
    columns of the tensor. *)
Example to_hdf_small_library_raises :
  (Library.to_hdf (stars 1) "params.h5" "spectra.h5" ∅).1 = Raise ValueError.
Proof. rewrite to_hdf_outcome. reflexivity. Qed.

(** ** Loading *)

(** A successful [to_hdf] to two distinct paths leaves the table in the
    parameter file and the header, the axis and the tensor in the spectrum
    file. *)
Lemma to_hdf_saved self paramfile specfile (fs fs' : gmap string hdf5) :
  paramfile ≠ specfile →
  Library.to_hdf self paramfile specfile fs = (Ok (), fs') →
  fs' !! paramfile = Some (saved_params self)
  ∧ fs' !! specfile = Some (saved_spectra self).
Proof.
  intros Hne. assert (specfile ≠ paramfile) as Hne' by congruence.
  rewrite to_hdf_outcome. cbv zeta.
  destruct (nbytes_col0 _); [|discriminate].
  destruct (int_truediv _ _); [|discriminate].
  destruct (chunks_fit _ _); [|discriminate].
  intros [= <-]. split.
  - rewrite lookup_insert_ne by done. apply lookup_insert_eq.
  - apply lookup_insert_eq.
Qed.

Lemma np_where_nil {A} (p : A → bool) (l : list A) :
  (∀ v, v ∈ l → p v = false) → np_where p l = [].
Proof.
  intros Hall. apply elem_of_nil_inv. intros i Hi.
  apply list_elem_of_omap in Hi as ([j v] & Hjv & Hp).
  apply elem_of_lookup_imap in Hjv as (j' & v' & Heq & Hv).
  injection Heq as -> ->.
  simpl in Hp. rewrite (Hall v') in Hp; [discriminate|].
  by apply list_elem_of_lookup_2 with j'.
Qed.

Lemma np_where_cons {A} (p : A → bool) (l : list A) v :
  v ∈ l → p v = true → ∃ i idx, np_where p l = i :: idx.
Proof.
  intros Hv Hp. destruct (np_where p l) as [|i idx] eqn:Hw; [|by eauto].
  apply list_elem_of_lookup_1 in Hv as [j Hj].
  assert (j ∈ np_where p l) as Hin.
  { apply list_elem_of_omap. exists (j, v). simpl. rewrite Hp. split; [|done].
    apply elem_of_lookup_imap. by exists j, v. }
  rewrite Hw in Hin. by apply elem_of_nil in Hin.
Qed.

(** Loading a saved library through a window: the sample positions in the
    window are computed, and either there is none or the tensor is read
    through the unbound name. *)
Lemma read_hdf_window_outcome today self paramfile specfile
    (fs : gmap string hdf5) wavlim :
  fs !! paramfile = Some (saved_params self) →
  fs !! specfile = Some (saved_spectra self) →
  read_hdf today fs paramfile specfile (Some wavlim)
  = match np_where (in_window wavlim) (Library.wav self) with
    | [] => Raise IndexError
    | _ :: _ => Raise (NameError "h5")
    end.
Proof.
  intros Hp Hs. unfold read_hdf, pd_read_hdf, h5py_File_r.
  rewrite Hp, Hs. simpl. rewrite lookup_singleton_eq. simpl.
  unfold getitem_key. simpl. rewrite lookup_singleton_eq. simpl.
  destruct (np_where (in_window wavlim) (Library.wav self)) as [|i idx];
    [done|].
  unfold getitem_last.
  destruct (proj2 (last_is_Some (i :: idx))) as [j ->]; done.
Qed.

(** Loading a saved library in full runs the constructor on what was
    saved. *)
Lemma read_hdf_full_outcome today self paramfile specfile
    (fs : gmap string hdf5) :
  fs !! paramfile = Some (saved_params self) →
  fs !! specfile = Some (saved_spectra self) →
  read_hdf today fs paramfile specfile None
  = Library.__init__ today (Library.wav self)
      (Some (Library.library_spectra self))
      (Some (Library.library_params self)) (Library.header self) None.
Proof.
  intros Hp Hs. unfold read_hdf, pd_read_hdf, h5py_File_r.
  rewrite Hp, Hs. simpl. rewrite lookup_singleton_eq. simpl.
  unfold getitem_key. simpl. by rewrite !lookup_singleton_eq.
Qed.

(** In the file model, where a stored frame is read back as it was stored:
    where saving succeeds, a library that satisfies the constructor's
    checks is loaded back with its table, axis and tensor, and its header
    with a new date stamp. *)
Lemma save_load_roundtrip today self paramfile specfile
    (fs fs' : gmap string hdf5) :
  paramfile ≠ specfile →
  consistent self → has_required_fields (Library.library_params self) →
  (∀ i, i ∈ df_index (Library.library_params self) →
        i < Z.of_nat (Library.__len__ self)) →
  Library.to_hdf self paramfile specfile fs = (Ok (), fs') →
  read_hdf today fs' paramfile specfile None
  = Ok (Library.mk (Library.library_params self) (Library.wav self)
          (Library.library_spectra self)
          (<["date_created" := SStr today]> (Library.header self)) None).
Proof.
  intros Hne (Hlen & Hd1 & Hd2) Hreq Hidx Hsave.
  destruct (to_hdf_saved _ _ _ _ _ Hne Hsave) as [Hp Hs].
  rewrite (read_hdf_full_outcome today self) by done.
  destruct (init_full_cases today (Library.wav self)
              (Library.library_spectra self) (Library.library_params self)
              (Library.header self) None)
    as [(col & Hcol & Hn & _)
       |[(_ & Hn & _)
       |[(_ & _ & i & Hi & Hn & _)
       |[(_ & _ & _ & Hn & _)
       |(_ & _ & _ & _ & _ & Hr)]]]].
  - destruct Hn. by apply Hreq.
  - done.
  - destruct Hn. by apply Hidx.
  - by destruct Hn.
  - done.
Qed.

(** A library of 3125 stars over two samples can be saved: the slab takes
    50000 bytes and the chunk shape is (3125, 2, 2). *)
Lemma stars_saved :
  let lib := stars (Z.to_nat 3125) in
  Library.to_hdf lib "params.h5" "spectra.h5" ∅
  = (Ok (),
     <["spectra.h5" := saved_spectra lib]>
       (<["params.h5" := saved_params lib]> ∅)).
Proof.
  intros lib. rewrite to_hdf_outcome.
  assert (len3 (Library.library_spectra lib) = Z.to_nat 3125) as Hlen
    by apply length_replicate.
  unfold nbytes_col0, int_truediv, chunks_fit, shape3. rewrite Hlen.
  rewrite Z2Nat.id by lia. reflexivity.
Qed.

(** C1.  The library of 3125 stars over the axis 5000, 5000.5 is saved, and
    loaded with the limits (4999, 5000.25), which hold the sample 5000: the
    call raises NameError at the read of the tensor through [h5], and
    returns no library. *)
Theorem read_hdf_window_raises_NameError :
  let lib := stars (Z.to_nat 3125) in
  let saved := Library.to_hdf lib "params.h5" "spectra.h5" ∅ in
  saved.1 = Ok ()
  ∧ Library.wav lib = [5000; 5000.5]%float
  ∧ in_window (4999, 5000.25)%float 5000%float = true
  ∧ read_hdf "2016-07-02" saved.2 "params.h5" "spectra.h5"
      (Some (4999, 5000.25)%float)
    = Raise (NameError "h5").
Proof.
  intros lib saved. subst saved.
  pose proof stars_saved as Hsaved. cbv zeta in Hsaved. fold lib in Hsaved.
  rewrite Hsaved. simpl.
  split_and!; [reflexivity..|].
  rewrite (read_hdf_window_outcome _ lib).
  - reflexivity.
  - rewrite lookup_insert_ne by done. apply lookup_insert_eq.
  - apply lookup_insert_eq.
Qed.

(** C8.  When a library was saved to two files and no sample of its axis
    lies strictly between the limits, loading with these limits raises
    IndexError. *)
Theorem read_hdf_empty_window_raises_IndexError today self paramfile
    specfile (fs fs' : gmap string hdf5) lo hi :
  paramfile ≠ specfile →
  Library.to_hdf self paramfile specfile fs = (Ok (), fs') →
  (∀ v, v ∈ Library.wav self → in_window (lo, hi) v = false) →
  read_hdf today fs' paramfile specfile (Some (lo, hi)) = Raise IndexError.
Proof.
  intros Hne Hsave Hout.
  destruct (to_hdf_saved _ _ _ _ _ Hne Hsave) as [Hp Hs].
  rewrite (read_hdf_window_outcome today self) by done.
  by rewrite np_where_nil.
Qed.

Lemma read_hdf_empty_window_raises_IndexError_witness :
  read_hdf "2016-07-02"
    (<["spectra.h5" := saved_spectra (stars (Z.to_nat 3125))]>
       (<["params.h5" := saved_params (stars (Z.to_nat 3125))]> ∅))
    "params.h5" "spectra.h5" (Some (6000, 7000)%float)
  = Raise IndexError.
Proof.
  apply (read_hdf_empty_window_raises_IndexError "2016-07-02"
           (stars (Z.to_nat 3125)) "params.h5" "spectra.h5" ∅).
  - discriminate.
  - vm_compute. reflexivity.
  - intros v Hv. simpl in Hv.
    apply elem_of_cons in Hv as [->|Hv]; [reflexivity|].
    apply list_elem_of_singleton in Hv as ->. reflexivity.
Defined.

(** * Further properties *)

(** ** Construction: which check speaks *)

(** A loop of assertions raises at the first element that fails. *)
Lemma for_assert_first {A} (p : A → bool) (msg : A → string)
    (before after : list A) (x : A) :
  (∀ y, y ∈ before → p y = true) → p x = false →
  for_ (before ++ x :: after) (λ y, assert_ (p y) (msg y))
  = Raise (AssertionError (msg x)).
Proof.
  intros Hbefore Hx. induction before as [|a before IH].
  - rewrite app_nil_l, for_cons. by rewrite Hx.
  - rewrite <-app_comm_cons, for_cons.
    rewrite (Hbefore a) by by left. simpl.
    apply IH. intros y Hy. apply Hbefore. by right.
Qed.

(** X1.  Full-path construction returns a library exactly when the table
    has the 19 required fields, the table and the tensor have the same
    length N, every index label is below N, and the tensor has shape
    (N, 2, W) for the axis of length W. *)
Theorem init_full_succeeds_iff today wav sp pa h wl :
  (∃ lib, Library.__init__ today wav (Some sp) (Some pa) h wl = Ok lib)
  ↔ has_required_fields pa
    ∧ df_len pa = len3 sp
    ∧ (∀ i, i ∈ df_index pa → i < Z.of_nat (len3 sp))
    ∧ dim1 sp = 2%nat ∧ dim2 sp = length wav.
Proof.
  destruct (init_full_cases today wav sp pa h wl)
    as [(col & Hcol & Hn & Hr)
       |[(_ & Hn & Hr)
       |[(_ & _ & i & Hi & Hn & Hr)
       |[(_ & _ & _ & Hn & Hr)
       |(Hreq & Hlen & Hidx & H1 & H2 & Hr)]]]];
    cbv zeta in Hr; rewrite Hr; split.
  - intros [lib [=]].
  - intros (Hreq & _). destruct Hn. by apply Hreq.
  - intros [lib [=]].
  - intros (_ & Hlen & _). done.
  - intros [lib [=]].
  - intros (_ & _ & Hidx & _). destruct Hn. by apply Hidx.
  - intros [lib [=]].
  - intros (_ & _ & _ & H1 & H2). by destruct Hn.
  - done.
  - intros _. by eexists.
Qed.

(** X2.  When the table lacks required fields, full-path construction
    raises the assertion error that names the first missing field in the
    order of [LIB_COLS], whatever else is wrong with the arguments. *)
Theorem init_reports_first_missing_field today wav sp pa h wl before col
    after :
  LIB_COLS = before ++ col :: after →
  (∀ c, c ∈ before → c ∈ columns pa) →
  (col ∉ columns pa) →
  Library.__init__ today wav (Some sp) (Some pa) h wl
  = Raise (AssertionError (col +:+ " required in parameter table")).
Proof.
  intros Hsplit Hbefore Hcol. unfold Library.__init__. rewrite Hsplit.
  rewrite (for_assert_first
             (λ c, bool_decide (c ∈ columns pa)) msg_table_col before after
             col).
  - done.
  - intros c Hc. by apply bool_decide_eq_true_2, Hbefore.
  - by apply bool_decide_eq_false_2.
Qed.

Lemma init_reports_first_missing_field_witness :
  Library.__init__ "2016-07-01" wav2 (Some tensor1)
    (Some (mkDataFrame ["lib_index"; "cps_name"; "Teff"] [])) ∅ None
  = Raise (AssertionError ("obs" +:+ " required in parameter table")).
Proof.
  apply (init_reports_first_missing_field "2016-07-01" wav2 tensor1
           (mkDataFrame ["lib_index"; "cps_name"; "Teff"] []) ∅ None
           ["lib_index"; "cps_name"] "obs"
           ["lib_obs"; "Teff"; "u_Teff"; "radius"; "u_radius"; "logg";
            "u_logg"; "feh"; "u_feh"; "mass"; "u_mass"; "age"; "u_age";
            "vsini"; "source"; "source_name"]).
  - reflexivity.
  - intros c Hc. simpl.
    apply elem_of_cons in Hc as [->|Hc]; [by left|].
    apply list_elem_of_singleton in Hc as ->. right. by left.
  - simpl. intros Hin.
    repeat (apply elem_of_cons in Hin as [Hin|Hin]; [discriminate Hin|]).
    by apply elem_of_nil in Hin.
Defined.

(** X3.  When the table has the required fields and its length differs
    from the tensor's, full-path construction raises the length-mismatch
    assertion error, whatever the labels and the shape are. *)
Theorem init_reports_length_mismatch today wav sp pa h wl :
  has_required_fields pa → df_len pa ≠ len3 sp →
  Library.__init__ today wav (Some sp) (Some pa) h wl
  = Raise (AssertionError msg_length).
Proof.
  intros Hreq Hlen.
  destruct (init_full_cases today wav sp pa h wl)
    as [(col & Hcol & Hn & _)
       |[(_ & _ & Hr)
       |[(_ & ? & _)
       |[(_ & ? & _)
       |(_ & ? & _)]]]]; try done.
  destruct Hn. by apply Hreq.
Qed.

Lemma init_reports_length_mismatch_witness :
  Library.__init__ "2016-07-01" wav2 (Some (np_empty0 2 2)) (Some table1) ∅
    None
  = Raise (AssertionError
             "Error: Length of parameter table and library spectra are not equal.").
Proof.
  apply (init_reports_length_mismatch "2016-07-01" wav2 (np_empty0 2 2)
           table1 ∅ None).
  - intros col Hcol. exact Hcol.
  - unfold df_len, len3. simpl. lia.
Defined.

(** X4.  When the fields and the lengths are right, full-path construction
    raises at the first row, in table order, whose index label is not below
    the number N of entries, with a message that prints that label. *)
Theorem init_reports_first_index_out_of_bounds today wav sp pa h wl before
    i after :
  has_required_fields pa → df_len pa = len3 sp →
  df_index pa = before ++ i :: after →
  (∀ j, j ∈ before → j < Z.of_nat (len3 sp)) →
  (Z.of_nat (len3 sp) ≤ i)%Z →
  Library.__init__ today wav (Some sp) (Some pa) h wl
  = Raise (AssertionError
             ("Error: Index " +:+ pretty i
              +:+ " is out of bounds in library_spectra")).
Proof.
  intros Hreq Hlen Hsplit Hbefore Hi. unfold Library.__init__.
  rewrite (for_assert_Ok (λ c, bool_decide (c ∈ columns pa)) msg_table_col
             LIB_COLS)
    by (intros c Hc; by apply bool_decide_eq_true_2, Hreq).
  simpl. rewrite (bool_decide_eq_true_2 _ Hlen). simpl.
  rewrite Hsplit.
  rewrite (for_assert_first
             (λ j, bool_decide (j < Z.of_nat (len3 sp))) msg_index before
             after i).
  - done.
  - intros j Hj. by apply bool_decide_eq_true_2, Hbefore.
  - apply bool_decide_eq_false_2. lia.
Qed.

Lemma init_reports_first_index_out_of_bounds_witness :
  Library.__init__ "2016-07-01" wav2 (Some (stars_tensor 3))
    (Some table_gaps) ∅ None
  = Raise (AssertionError
             ("Error: Index " +:+ pretty 5
              +:+ " is out of bounds in library_spectra")).
Proof.
  apply (init_reports_first_index_out_of_bounds "2016-07-01" wav2
           (stars_tensor 3) table_gaps ∅ None [0] 5 [9]).
  - intros col Hcol. exact Hcol.
  - reflexivity.
  - reflexivity.
  - intros j Hj. apply list_elem_of_singleton in Hj as ->.
    unfold len3. simpl. lia.
  - unfold len3. simpl. lia.
Defined.

(** X5.  When the fields, the lengths and the labels pass, a tensor whose
    second dimension is not 2 or whose third is not the length of the axis
    makes full-path construction raise the shape assertion error. *)
Theorem init_reports_wrong_shape today wav sp pa h wl :
  has_required_fields pa → df_len pa = len3 sp →
  (∀ i, i ∈ df_index pa → i < Z.of_nat (len3 sp)) →
  ¬ (dim1 sp = 2%nat ∧ dim2 sp = length wav) →
  Library.__init__ today wav (Some sp) (Some pa) h wl
  = Raise (AssertionError (msg_shape (len3 sp) (length wav))).
Proof.
  intros Hreq Hlen Hidx Hshape.
  destruct (init_full_cases today wav sp pa h wl)
    as [(col & Hcol & Hn & _)
       |[(_ & ? & _)
       |[(_ & _ & i & Hi & Hn & _)
       |[(_ & _ & _ & _ & Hr)
       |(_ & _ & _ & ? & ? & _)]]]]; try done.
  - destruct Hn. by apply Hreq.
  - destruct Hn. by apply Hidx.
  - by destruct Hshape.
Qed.

Lemma init_reports_wrong_shape_witness :
  Library.__init__ "2016-07-01" wav2 (Some tensor_flat) (Some table1) ∅ None
  = Raise (AssertionError "Error: library_spectra should have shape (1, 2, 2").
Proof.
  apply (init_reports_wrong_shape "2016-07-01" wav2 tensor_flat table1 ∅
           None).
  - intros col Hcol. exact Hcol.
  - reflexivity.
  - intros i Hi. apply list_elem_of_singleton in Hi as ->.
    unfold len3. simpl. lia.
  - intros [Hd _]. discriminate Hd.
Defined.

(** X6.  Every library the constructor returns satisfies the invariants:
    the table and the tensor have the same length, the tensor has shape
    (N, 2, W), the table has the required fields and every label is below
    N; the axis and the limits are stored as given, the axis is not cut to
    the limits.  On the empty path the library has no entry, and a table or
    a tensor passed alone is dropped. *)
Theorem init_establishes_invariants today wav sp pa h wl lib :
  Library.__init__ today wav sp pa h wl = Ok lib →
  consistent lib
  ∧ has_required_fields (Library.library_params lib)
  ∧ (∀ i, i ∈ df_index (Library.library_params lib) →
          i < Z.of_nat (Library.__len__ lib))
  ∧ Library.wav lib = wav
  ∧ Library.wavlim lib = wl
  ∧ (sp = None ∨ pa = None →
     Library.__len__ lib = 0%nat
     ∧ Library.library_params lib = mkDataFrame LIB_COLS []).
Proof.
  intros Hinit.
  assert (∀ wav', consistent
            (Library.mk (mkDataFrame LIB_COLS []) wav'
               (np_empty0 2 (length wav'))
               {["date_created" := SStr today]} wl)) as Hempty.
  { intros wav'. by split_and!. }
  destruct sp as [sp|], pa as [pa|].
  - destruct (init_full_cases today wav sp pa h wl)
      as [(? & _ & _ & Hr)
         |[(_ & _ & Hr)
         |[(_ & _ & ? & _ & _ & Hr)
         |[(_ & _ & _ & _ & Hr)
         |(Hreq & Hlen & Hidx & H1 & H2 & Hr)]]]];
      cbv zeta in Hr; rewrite Hr in Hinit; try discriminate.
    injection Hinit as <-. split_and!; try done.
    intros [?|?]; discriminate.
  - injection Hinit as <-. split_and!; try done.
    + intros col Hcol. exact Hcol.
    + intros i Hi. by apply elem_of_nil in Hi.
  - injection Hinit as <-. split_and!; try done.
    + intros col Hcol. exact Hcol.
    + intros i Hi. by apply elem_of_nil in Hi.
  - injection Hinit as <-. split_and!; try done.
    + intros col Hcol. exact Hcol.
    + intros i Hi. by apply elem_of_nil in Hi.
Qed.

Lemma init_establishes_invariants_witness :
  let lib :=
    Library.mk (mkDataFrame LIB_COLS []) wav2 (np_empty0 2 2)
      {["date_created" := SStr "2016-07-01"]}
      (Some (5000.25, 5001)%float) in
  consistent lib
  ∧ has_required_fields (Library.library_params lib)
  ∧ (∀ i, i ∈ df_index (Library.library_params lib) →
          i < Z.of_nat (Library.__len__ lib))
  ∧ Library.wav lib = wav2
  ∧ Library.wavlim lib = Some (5000.25, 5001)%float
  ∧ (@None ndarray3 = None ∨ Some table1 = None →
     Library.__len__ lib = 0%nat
     ∧ Library.library_params lib = mkDataFrame LIB_COLS []).
Proof.
  intros lib.
  apply (init_establishes_invariants "2016-07-01" wav2 None (Some table1)
           header1 (Some (5000.25, 5001)%float) lib).
  reflexivity.
Defined.

(** ** Insertion: order of the checks, success, and what a failure leaves *)

(** X7.  When the table and the tensor agree in length and the row lacks
    required fields, [insert] raises the assertion error that names the
    first missing field in the order of [LIB_COLS], before the spectrum is
    looked at, and changes nothing. *)
Theorem insert_reports_first_missing_field spectrum u_spectrum self params
    before col after :
  df_len (Library.library_params self) = len3 (Library.library_spectra self) →
  LIB_COLS = before ++ col :: after →
  (∀ c, c ∈ before → c ∈ columns params) →
  (col ∉ columns params) →
  Library.insert spectrum u_spectrum (self, params)
  = (Raise (AssertionError (col +:+ " required in parameter specification.")),
     (self, params)).
Proof.
  intros Hlen Hsplit Hbefore Hcol.
  pose proof (for_assert_first
                (λ c, bool_decide (c ∈ columns params)) msg_row_col before
                after col) as Hfor.
  rewrite <-Hsplit in Hfor.
  unfold Library.insert, mbind, M_bind, get, lift, put. simpl.
  rewrite (bool_decide_eq_true_2 _ Hlen). simpl.
  unfold mbind in Hfor. rewrite Hfor; [done| |].
  - intros c Hc. by apply bool_decide_eq_true_2, Hbefore.
  - by apply bool_decide_eq_false_2.
Qed.

Lemma insert_reports_first_missing_field_witness :
  Library.insert [0.75%float] [] (empty2,
    mkDataFrame ["lib_index"; "cps_name"; "Teff"] [])
  = (Raise (AssertionError ("obs" +:+ " required in parameter specification.")),
     (empty2, mkDataFrame ["lib_index"; "cps_name"; "Teff"] [])).
Proof.
  apply (insert_reports_first_missing_field [0.75%float] [] empty2
           (mkDataFrame ["lib_index"; "cps_name"; "Teff"] [])
           ["lib_index"; "cps_name"] "obs"
           ["lib_obs"; "Teff"; "u_Teff"; "radius"; "u_radius"; "logg";
            "u_logg"; "feh"; "u_feh"; "mass"; "u_mass"; "age"; "u_age";
            "vsini"; "source"; "source_name"]).
  - reflexivity.
  - reflexivity.
  - intros c Hc. simpl.
    apply elem_of_cons in Hc as [->|Hc]; [by left|].
    apply list_elem_of_singleton in Hc as ->. right. by left.
  - simpl. intros Hin.
    repeat (apply elem_of_cons in Hin as [Hin|Hin]; [discriminate Hin|]).
    by apply elem_of_nil in Hin.
Defined.

(** X8.  [insert] returns exactly when the table and the tensor have the
    same length, the row has the required fields, the spectrum has the
    length of the axis, the uncertainty has the length of the spectrum, and
    the tensor's trailing shape is (2, length of the spectrum). *)
Theorem insert_succeeds_iff spectrum u_spectrum self params :
  (∃ st, Library.insert spectrum u_spectrum (self, params) = (Ok (), st))
  ↔ df_len (Library.library_params self)
    = len3 (Library.library_spectra self)
    ∧ has_required_fields params
    ∧ length spectrum = length (Library.wav self)
    ∧ length spectrum = length u_spectrum
    ∧ dim1 (Library.library_spectra self) = 2%nat
    ∧ dim2 (Library.library_spectra self) = length spectrum.
Proof.
  destruct (insert_cases spectrum u_spectrum self params)
    as [(Hn & Hr)
       |[(_ & col & Hcol & Hn & Hr)
       |[(_ & _ & Hn & Hr)
       |(Hlen & Hreq & Hsp & Hr)]]];
    cbv zeta in Hr; rewrite Hr; clear Hr.
  - split; [intros [st [=]]|]. intros (? & _). done.
  - split; [intros [st [=]]|]. intros (_ & Hreq & _).
    destruct Hn. by apply Hreq.
  - split; [intros [st [=]]|]. intros (_ & _ & ? & _). done.
  - unfold np_vstack.
    destruct (decide (length spectrum = length u_spectrum)) as [Hu|Hu];
      [rewrite (bool_decide_eq_true_2 _ Hu)
      |rewrite (bool_decide_eq_false_2 _ Hu)]; simpl.
    2:{ split; [intros [st [=]]|]. intros (_ & _ & _ & ? & _). done. }
    destruct (decide (dim1 (Library.library_spectra self) = 2%nat
                      ∧ dim2 (Library.library_spectra self)
                        = length spectrum)) as [Hd|Hd];
      [rewrite (bool_decide_eq_true_2 _ Hd)
      |rewrite (bool_decide_eq_false_2 _ Hd)]; simpl.
    2:{ split; [intros [st [=]]|]. intros (_ & _ & _ & _ & ? & ?).
        by destruct Hd. }
    split; [|by eexists]. intros _. by destruct Hd.
Qed.

(** X9.  When the first three checks pass and the uncertainty has not the
    length of the spectrum, [insert] raises ValueError from the stacking
    after the table was extended: the table has the new rows, the tensor
    and the length of the library are as before, and every later [insert]
    on this library raises the length-mismatch assertion error. *)
Theorem insert_ragged_uncertainty_corrupts spectrum u_spectrum self params :
  df_len (Library.library_params self) = len3 (Library.library_spectra self) →
  has_required_fields params →
  length spectrum = length (Library.wav self) →
  length spectrum ≠ length u_spectrum →
  (0 < df_len params)%nat →
  Library.insert spectrum u_spectrum (self, params)
  = (Raise ValueError, (table_appended self params, stamped self params))
  ∧ Library.__len__ (table_appended self params) = Library.__len__ self
  ∧ df_len (Library.library_params (table_appended self params))
    = (Library.__len__ self + df_len params)%nat
  ∧ ∀ spectrum' u_spectrum' params',
      Library.insert spectrum' u_spectrum'
        (table_appended self params, params')
      = (Raise (AssertionError msg_length),
         (table_appended self params, params')).
Proof.
  intros Hlen Hreq Hsp Hu Hrows.
  assert (df_len (Library.library_params (table_appended self params))
          = (Library.__len__ self + df_len params)%nat) as Hgrown.
  { unfold table_appended, stamped. simpl.
    rewrite df_len_concat, df_len_set_column, Hlen. done. }
  split_and!.
  - destruct (insert_cases spectrum u_spectrum self params)
      as [(Hn & _)
         |[(_ & col & Hcol & Hn & _)
         |[(_ & _ & Hn & _)
         |(_ & _ & _ & Hr)]]]; [done|by destruct Hn; apply Hreq|done|].
    cbv zeta in Hr. rewrite Hr. unfold np_vstack.
    by rewrite (bool_decide_eq_false_2 _ Hu).
  - done.
  - done.
  - intros spectrum' u_spectrum' params'.
    destruct (insert_cases spectrum' u_spectrum'
                (table_appended self params) params')
      as [(_ & Hr)|[(Hn & _)|[(Hn & _)|(Hn & _)]]]; [done|..];
      rewrite Hgrown in Hn; unfold Library.__len__ in Hn; simpl in Hn; lia.
Qed.

Lemma insert_ragged_uncertainty_corrupts_witness :
  Library.insert flux2 [0.0625%float] (empty2, star_row)
  = (Raise ValueError,
     (table_appended empty2 star_row, stamped empty2 star_row))
  ∧ Library.__len__ (table_appended empty2 star_row) = Library.__len__ empty2
  ∧ df_len (Library.library_params (table_appended empty2 star_row))
    = (Library.__len__ empty2 + df_len star_row)%nat
  ∧ ∀ spectrum' u_spectrum' params',
      Library.insert spectrum' u_spectrum'
        (table_appended empty2 star_row, params')
      = (Raise (AssertionError msg_length),
         (table_appended empty2 star_row, params')).
Proof.
  apply (insert_ragged_uncertainty_corrupts flux2 [0.0625%float] empty2
           star_row).
  - reflexivity.
  - intros col Hcol. exact Hcol.
  - reflexivity.
  - simpl. lia.
  - unfold df_len. simpl. lia.
Defined.

(** X10.  [insert] does not check that the frame is one row.  On a
    consistent library, a frame of k rows, k other than 1, with the required
    fields and a fitting spectrum pair is accepted: the table grows by k
    rows and the tensor by one slab, and every later [insert] on the library
    raises the length-mismatch assertion error. *)
Theorem insert_frame_not_one_row spectrum u_spectrum self params :
  consistent self → has_required_fields params →
  length spectrum = length (Library.wav self) →
  length u_spectrum = length (Library.wav self) →
  df_len params ≠ 1%nat →
  ∃ self',
    Library.insert spectrum u_spectrum (self, params)
    = (Ok (), (self', stamped self params))
    ∧ Library.__len__ self' = S (Library.__len__ self)
    ∧ df_len (Library.library_params self')
      = (Library.__len__ self + df_len params)%nat
    ∧ ∀ spectrum' u_spectrum' params',
        Library.insert spectrum' u_spectrum' (self', params')
        = (Raise (AssertionError msg_length), (self', params')).
Proof.
  intros (Hlen & Hd1 & Hd2) Hreq Hsp Hu Hrows.
  destruct (insert_cases spectrum u_spectrum self params)
    as [(Hn & _)
       |[(_ & col & Hcol & Hn & _)
       |[(_ & _ & Hn & _)
       |(_ & _ & _ & Hr)]]]; [done|by destruct Hn; apply Hreq|done|].
  cbv zeta in Hr. rewrite Hr. clear Hr. unfold np_vstack.
  rewrite (bool_decide_eq_true_2 (length spectrum = length u_spectrum))
    by congruence.
  rewrite (bool_decide_eq_true_2 (_ ∧ _)) by (split; congruence).
  simpl. eexists. split; [reflexivity|].
  assert (df_len (concat_ignore_index (Library.library_params self)
                    (stamped self params))
          = (Library.__len__ self + df_len params)%nat) as Hgrown.
  { unfold stamped. by rewrite df_len_concat, df_len_set_column, Hlen. }
  unfold Library.__len__ in *. unfold len3 in *. simpl.
  split_and!.
  - rewrite length_app. simpl. lia.
  - done.
  - intros spectrum' u_spectrum' params'.
    match goal with
    | |- Library.insert _ _ (?lib, _) = _ =>
        destruct (insert_cases spectrum' u_spectrum' lib params')
          as [(_ & Hr)|[(Hn & _)|[(Hn & _)|(Hn & _)]]]
    end; [done|..];
      simpl in Hn; rewrite Hgrown in Hn; unfold len3 in Hn; simpl in Hn;
      rewrite length_app in Hn; simpl in Hn; lia.
Qed.

Lemma insert_frame_not_one_row_witness :
  ∃ self',
    Library.insert flux2 u_flux2 (empty2, two_rows)
    = (Ok (), (self', stamped empty2 two_rows))
    ∧ Library.__len__ self' = S (Library.__len__ empty2)
    ∧ df_len (Library.library_params self')
      = (Library.__len__ empty2 + df_len two_rows)%nat
    ∧ ∀ spectrum' u_spectrum' params',
        Library.insert spectrum' u_spectrum' (self', params')
        = (Raise (AssertionError msg_length), (self', params')).
Proof.
  apply (insert_frame_not_one_row flux2 u_flux2 empty2 two_rows).
  - split_and!; reflexivity.
  - intros col Hcol. exact Hcol.
  - reflexivity.
  - reflexivity.
  - unfold df_len. simpl. lia.
Defined.

Lemma col_pos_Some cols c j : col_pos cols c = Some j → cols !! j = Some c.
Proof.
  unfold col_pos. destruct (list_find _ cols) as [[j' c']|] eqn:Hfind;
    [|done].
  intros [= <-]. by apply list_find_Some in Hfind as (Hj & -> & _).
Qed.

(** Assigning a column leaves the cells under the other names as they
    were. *)
Lemma df_cell_set_column_ne c v df i c' :
  c' ≠ c → df_cell (set_column c v df) i c' = df_cell df i c'.
Proof.
  intros Hne. unfold set_column.
  destruct (col_pos (columns df) c) as [j|] eqn:Hpos; [|done].
  apply col_pos_Some in Hpos.
  unfold df_cell. simpl. rewrite list_lookup_fmap.
  destruct (df_rows df !! i) as [r|]; [|done]. simpl.
  unfold cell_of.
  destruct (col_pos (columns df) c') as [j'|] eqn:Hpos'; [|done]. simpl.
  apply col_pos_Some in Hpos'.
  apply list_lookup_insert_ne. intros ->. congruence.
Qed.

(** X11.  A valid [insert] stores the caller's values: under every field
    of the row other than [lib_index], the last row of the table holds the
    cell the caller passed, and the caller's frame still holds it. *)
Theorem insert_stores_row_values spectrum u_spectrum self params :
  consistent self → df_wf (Library.library_params self) →
  valid_entry (length (Library.wav self)) (params, spectrum, u_spectrum) →
  ∃ self',
    Library.insert spectrum u_spectrum (self, params)
    = (Ok (), (self', stamped self params))
    ∧ ∀ c, c ∈ columns params → c ≠ "lib_index" →
        df_cell (Library.library_params self') (Library.__len__ self) c
        = df_cell params 0 c
        ∧ df_cell (stamped self params) 0 c = df_cell params 0 c.
Proof.
  intros Hcons Hwf Hentry.
  destruct (insert_valid self params spectrum u_spectrum Hcons Hwf Hentry)
    as (self' & Hins & _ & _ & _ & _ & _ & Hnew & _).
  exists self'. split; [done|]. intros c Hc Hne.
  assert (df_cell (stamped self params) 0 c = df_cell params 0 c) as Hsame
    by by apply df_cell_set_column_ne.
  split; [|done]. unfold Library.__len__. rewrite Hnew; [done|].
  unfold stamped. by rewrite columns_set_column.
Qed.

Lemma insert_stores_row_values_witness :
  ∃ self',
    Library.insert flux2 u_flux2 (empty2, star_row)
    = (Ok (), (self', stamped empty2 star_row))
    ∧ ∀ c, c ∈ columns star_row → c ≠ "lib_index" →
        df_cell (Library.library_params self') (Library.__len__ empty2) c
        = df_cell star_row 0 c
        ∧ df_cell (stamped empty2 star_row) 0 c = df_cell star_row 0 c.
Proof.
  apply (insert_stores_row_values flux2 u_flux2 empty2 star_row).
  - split_and!; reflexivity.
  - constructor.
  - split_and!; [repeat constructor|reflexivity| |reflexivity..].
    intros col Hcol. exact Hcol.
Defined.

(** X12.  After a valid [insert] the labels of the table are the positions
    0, ..., N, whatever they were before: an index is in the library
    exactly when it lies in [0, len). *)
Theorem insert_relabels spectrum u_spectrum self params :
  consistent self → df_wf (Library.library_params self) →
  valid_entry (length (Library.wav self)) (params, spectrum, u_spectrum) →
  ∃ self',
    Library.insert spectrum u_spectrum (self, params)
    = (Ok (), (self', stamped self params))
    ∧ ∀ index,
        Library.__contains__ self' index = true
        ↔ 0 ≤ index < Z.of_nat (Library.__len__ self').
Proof.
  intros Hcons Hwf Hentry.
  destruct (insert_valid self params spectrum u_spectrum Hcons Hwf Hentry)
    as (self' & Hins & _ & _ & _ & Hidx & _ & _ & _ & Hlen & _).
  exists self'. split; [done|]. intros index.
  rewrite contains_spec, Hidx, Hlen.
  rewrite list_elem_of_fmap. setoid_rewrite elem_of_seq. split.
  - intros (i & -> & Hi). lia.
  - intros Hi. exists (Z.to_nat index). lia.
Qed.

Lemma insert_relabels_witness :
  ∃ self',
    Library.insert flux2 u_flux2 (star_below, star_row)
    = (Ok (), (self', stamped star_below star_row))
    ∧ ∀ index,
        Library.__contains__ self' index = true
        ↔ 0 ≤ index < Z.of_nat (Library.__len__ self').
Proof.
  apply (insert_relabels flux2 u_flux2 star_below star_row).
  - split_and!; reflexivity.
  - repeat constructor.
  - split_and!; [repeat constructor|reflexivity| |reflexivity..].
    intros col Hcol. exact Hcol.
Defined.

(** ** Lookup and membership in general *)

(** X13.  Indexed lookup returns for no library and no index: it raises
    KeyError when the index is not a label of the table, and AttributeError
    when it is. *)
Theorem getitem_never_returns self index :
  Library.__getitem__ self index
  = (if bool_decide (index ∈ df_index (Library.library_params self))
     then Raise (AttributeError "loc") else Raise KeyError)
  ∧ ∀ item, Library.__getitem__ self index ≠ Ok item.
Proof.
  rewrite getitem_outcome. unfold Library.__contains__.
  split; [done|]. intros item. by destruct (bool_decide _).
Qed.

(** X14.  In a library built from the empty one by valid inserts, an index
    is a member exactly when it lies in [0, len), and lookup of an index
    outside raises KeyError. *)
Theorem contains_after_inserts today wav0 h wl entries0 lib0 lib :
  Forall (valid_entry (length wav0)) entries0 →
  Library.__init__ today wav0 None None h wl = Ok lib0 →
  insert_all lib0 entries0 = Ok lib →
  Library.__len__ lib = length entries0
  ∧ (∀ index,
       Library.__contains__ lib index = true
       ↔ 0 ≤ index < Z.of_nat (Library.__len__ lib))
  ∧ (∀ index,
       ¬ (0 ≤ index < Z.of_nat (Library.__len__ lib)) →
       Library.__getitem__ lib index = Raise KeyError).
Proof.
  intros Hall [= <-] Hins.
  edestruct (insert_all_valid (length wav0) entries0 Hall) as
    (lib' & Hlib & _ & _ & Hdense & Hlen & _); [| | | |].
  5:{ rewrite Hlib in Hins. injection Hins as <-.
      split_and!.
      - exact Hlen.
      - intros index. by apply contains_dense.
      - intros index Hout. rewrite getitem_outcome.
        destruct (Library.__contains__ lib' index) eqn:Hc; [|done].
        by apply contains_dense in Hc. }
  - reflexivity.
  - by split_and!.
  - constructor.
  - split_and!.
    + apply lib_index_required.
    + reflexivity.
    + intros i Hi. unfold Library.__len__, len3 in Hi. simpl in Hi. lia.
Qed.

Lemma contains_after_inserts_witness :
  let lib :=
    Library.mk
      (concat_ignore_index (mkDataFrame LIB_COLS [])
         (stamped empty2 star_row))
      wav2 (mkArr3 2 2 [[flux2; u_flux2]])
      {["date_created" := SStr "2016-07-01"]} None in
  Library.__len__ lib = length [(star_row, flux2, u_flux2)]
  ∧ (∀ index,
       Library.__contains__ lib index = true
       ↔ 0 ≤ index < Z.of_nat (Library.__len__ lib))
  ∧ (∀ index,
       ¬ (0 ≤ index < Z.of_nat (Library.__len__ lib)) →
       Library.__getitem__ lib index = Raise KeyError).
Proof.
  intros lib.
  apply (contains_after_inserts "2016-07-01" wav2 ∅ None
           [(star_row, flux2, u_flux2)] empty2 lib).
  - constructor; [|constructor].
    split_and!; [repeat constructor|reflexivity| |reflexivity..].
    intros col Hcol. exact Hcol.
  - reflexivity.
  - vm_compute. reflexivity.
Defined.

(** ** Iteration *)

Lemma positional_label (self : Library.t) j r :
  positional self →
  df_rows (Library.library_params self) !! j = Some r → r.1 = Z.of_nat j.
Proof.
  intros Hpos Hr.
  assert (df_index (Library.library_params self) !! j = Some r.1) as Hj.
  { unfold df_index. by rewrite list_lookup_fmap, Hr. }
  rewrite Hpos, list_lookup_fmap in Hj.
  rewrite lookup_seq_lt in Hj.
  - by injection Hj as <-.
  - unfold df_len. by eapply lookup_lt_Some.
Qed.

Lemma df_loc_positional (self : Library.t) i r :
  positional self →
  df_rows (Library.library_params self) !! i = Some r →
  df_loc (Library.library_params self) (Z.of_nat i)
  = Ok (zip (columns (Library.library_params self)) r.2).
Proof.
  intros Hpos Hr. unfold df_loc.
  assert (list_find (λ r', r'.1 = Z.of_nat i)
            (df_rows (Library.library_params self)) = Some (i, r)) as ->.
  { apply list_find_Some. split_and!.
    - done.
    - exact (positional_label self i r Hpos Hr).
    - intros j y Hy Hlt Heq.
      rewrite (positional_label self j y Hpos Hy) in Heq. lia. }
  done.
Qed.

Lemma next_item self c item :
  positional self → entries self !! c = Some item →
  Iteration.__next__ (self, Some c) = (Ok (Some item), (self, Some (c + 1)%nat)).
Proof.
  intros Hpos Hitem.
  apply lookup_zip_with_Some in Hitem as (r & slab & -> & Hr & Hslab).
  unfold Iteration.__next__, mbind, M_bind, get, lift, put, mret, M_ret.
  simpl.
  rewrite bool_decide_eq_false_2
    by (apply lookup_lt_Some in Hslab; unfold len3; lia).
  rewrite (df_loc_positional self c r Hpos Hr), Hslab. done.
Qed.

Lemma next_stop self c :
  (len3 (Library.library_spectra self) ≤ c)%nat →
  Iteration.__next__ (self, Some c) = (Ok None, (self, Some c)).
Proof.
  intros Hc.
  unfold Iteration.__next__, mbind, M_bind, get, lift, put, mret, M_ret.
  simpl. by rewrite bool_decide_eq_true_2.
Qed.

Lemma entries_length self :
  df_len (Library.library_params self) = len3 (Library.library_spectra self) →
  length (entries self) = Library.__len__ self.
Proof.
  intros Hlen. unfold entries, Library.__len__.
  rewrite length_zip_with. unfold df_len, len3 in *. lia.
Qed.

Lemma next_all_from self fuel c :
  df_len (Library.library_params self) = len3 (Library.library_spectra self) →
  positional self →
  (c ≤ Library.__len__ self)%nat →
  (Library.__len__ self - c < fuel)%nat →
  Iteration.next_all fuel (self, Some c)
  = (Ok (Some (drop c (entries self))), (self, Some (Library.__len__ self))).
Proof.
  intros Hlen Hpos. revert c.
  induction fuel as [|fuel IH]; intros c Hc Hfuel; [lia|].
  cbn [Iteration.next_all]. unfold mbind at 1, M_bind at 1.
  destruct (decide (c = Library.__len__ self)) as [->|Hne].
  - rewrite next_stop by done.
    rewrite drop_ge by (rewrite entries_length by done; lia). done.
  - assert (c < length (entries self))%nat as Hlt
      by (rewrite entries_length by done; lia).
    destruct (lookup_lt_is_Some_2 _ _ Hlt) as [item Hitem].
    rewrite (next_item self c item Hpos Hitem).
    unfold mbind, M_bind.
    rewrite (IH (c + 1)%nat) by lia.
    unfold mret, M_ret. simpl.
    rewrite (drop_S _ item c Hitem).
    by replace (S c) with (c + 1)%nat by lia.
Qed.

Lemma list_from_any_cursor self cursor fuel :
  df_len (Library.library_params self) = len3 (Library.library_spectra self) →
  positional self →
  (Library.__len__ self < fuel)%nat →
  Iteration.list_ fuel (self, cursor)
  = (Ok (Some (entries self)), (self, Some (Library.__len__ self))).
Proof.
  intros Hlen Hpos Hfuel.
  unfold Iteration.list_, Iteration.__iter__, mbind, M_bind, get, put.
  simpl. rewrite (next_all_from self fuel 0) by (done || lia). done.
Qed.

(** X15.  On a library whose table and tensor have the same length and
    whose labels are the positions, [list(library)], started in any cursor
    state, returns every entry once, in position order, as the pair of the
    row and the slab, and leaves the cursor at the length. *)
Theorem iteration_yields_entries self cursor fuel :
  df_len (Library.library_params self) = len3 (Library.library_spectra self) →
  positional self →
  (Library.__len__ self < fuel)%nat →
  Iteration.list_ fuel (self, cursor)
  = (Ok (Some (entries self)), (self, Some (Library.__len__ self)))
  ∧ length (entries self) = Library.__len__ self.
Proof.
  intros Hlen Hpos Hfuel.
  split; [by apply list_from_any_cursor|by apply entries_length].
Qed.

Lemma iteration_yields_entries_witness :
  Iteration.list_ 3 (stars 2, Some 1%nat)
  = (Ok (Some (entries (stars 2))), (stars 2, Some (Library.__len__ (stars 2))))
  ∧ length (entries (stars 2)) = Library.__len__ (stars 2).
Proof.
  apply (iteration_yields_entries (stars 2) (Some 1%nat) 3).
  - reflexivity.
  - reflexivity.
  - unfold Library.__len__, len3. simpl. lia.
Defined.

(** X16.  [__next__] outside a pass: called before any [__iter__] it raises
    AttributeError, the cursor attribute being unset; called after a full
    pass it signals StopIteration, again at every further call, and the
    cursor stays at the length. *)
Theorem next_outside_iteration self cursor fuel :
  df_len (Library.library_params self) = len3 (Library.library_spectra self) →
  positional self →
  (Library.__len__ self < fuel)%nat →
  Iteration.__next__ (self, None)
  = (Raise (AttributeError "_Library__it_counter"), (self, None))
  ∧ (Iteration.list_ fuel ;; Iteration.__next__) (self, cursor)
    = (Ok None, (self, Some (Library.__len__ self)))
  ∧ (Iteration.list_ fuel ;; Iteration.__next__ ;; Iteration.__next__)
      (self, cursor)
    = (Ok None, (self, Some (Library.__len__ self))).
Proof.
  intros Hlen Hpos Hfuel.
  pose proof (list_from_any_cursor self cursor fuel Hlen Hpos Hfuel)
    as Hlist.
  split_and!.
  - done.
  - unfold mbind, M_bind. rewrite Hlist. by apply next_stop.
  - unfold mbind, M_bind. rewrite Hlist.
    rewrite next_stop by done. by apply next_stop.
Qed.

Lemma next_outside_iteration_witness :
  Iteration.__next__ (stars 2, None)
  = (Raise (AttributeError "_Library__it_counter"), (stars 2, None))
  ∧ (Iteration.list_ 3 ;; Iteration.__next__) (stars 2, None)
    = (Ok None, (stars 2, Some (Library.__len__ (stars 2))))
  ∧ (Iteration.list_ 3 ;; Iteration.__next__ ;; Iteration.__next__)
      (stars 2, None)
    = (Ok None, (stars 2, Some (Library.__len__ (stars 2)))).
Proof.
  apply (next_outside_iteration (stars 2) None 3).
  - reflexivity.
  - reflexivity.
  - unfold Library.__len__, len3. simpl. lia.
Defined.

(** X17.  [__next__] reads the row by label.  When the cursor is at a
    position below the length that is not a label of the table, it raises
    KeyError, and the cursor has already moved to the next position. *)
Theorem next_missing_label self c :
  (c < len3 (Library.library_spectra self))%nat →
  (Z.of_nat c ∉ df_index (Library.library_params self)) →
  Iteration.__next__ (self, Some c)
  = (Raise KeyError, (self, Some (c + 1)%nat)).
Proof.
  intros Hc Hlabel.
  unfold Iteration.__next__, mbind, M_bind, get, lift, put, mret, M_ret.
  simpl. rewrite bool_decide_eq_false_2 by lia.
  unfold df_loc.
  destruct (list_find _ (df_rows (Library.library_params self)))
    as [[j r]|] eqn:Hfind; [|done].
  apply list_find_Some in Hfind as (Hr & Heq & _).
  destruct Hlabel. rewrite <-Heq. unfold df_index.
  apply list_elem_of_fmap. exists r. split; [done|].
  by apply list_elem_of_lookup_2 with j.
Qed.

Lemma next_missing_label_witness :
  Iteration.__next__ (star_below, Some 0%nat)
  = (Raise KeyError, (star_below, Some (0 + 1)%nat)).
Proof.
  apply (next_missing_label star_below 0).
  - unfold len3. simpl. lia.
  - simpl. intros Hin. apply list_elem_of_singleton in Hin. discriminate Hin.
Defined.

(** X18.  The library has one cursor.  A pass started inside another pass
    resets it and runs it to the end: after the first item of the outer
    pass and a full inner pass, the outer pass's next call signals
    StopIteration, so the outer pass sees the first entry only. *)
Theorem nested_iteration_shares_cursor self cursor fuel first :
  df_len (Library.library_params self) = len3 (Library.library_spectra self) →
  positional self →
  (Library.__len__ self < fuel)%nat →
  entries self !! 0%nat = Some first →
  (Iteration.__iter__ ;;
   outer1 ← Iteration.__next__ ;
   inner ← Iteration.list_ fuel ;
   outer2 ← Iteration.__next__ ;
   mret (outer1, inner, outer2)) (self, cursor)
  = (Ok (Some first, Some (entries self), None),
     (self, Some (Library.__len__ self))).
Proof.
  intros Hlen Hpos Hfuel Hfirst.
  unfold mbind at 1, M_bind at 1.
  unfold Iteration.__iter__ at 1, mbind at 1, M_bind at 1, get, put.
  unfold mbind at 1, M_bind at 1.
  rewrite (next_item self 0 first Hpos Hfirst).
  unfold mbind at 1, M_bind at 1.
  rewrite (list_from_any_cursor self (Some (0 + 1)%nat) fuel Hlen Hpos
             Hfuel).
  unfold mbind, M_bind. rewrite next_stop by done. done.
Qed.

Lemma nested_iteration_shares_cursor_witness :
  (Iteration.__iter__ ;;
   outer1 ← Iteration.__next__ ;
   inner ← Iteration.list_ 3 ;
   outer2 ← Iteration.__next__ ;
   mret (outer1, inner, outer2)) (stars 2, None)
  = (Ok (Some (zip LIB_COLS (star_cells 0), [flux2; u_flux2]),
         Some (entries (stars 2)), None),
     (stars 2, Some (Library.__len__ (stars 2)))).
Proof.
  apply (nested_iteration_shares_cursor (stars 2) None 3
           (zip LIB_COLS (star_cells 0), [flux2; u_flux2])).
  - reflexivity.
  - reflexivity.
  - unfold Library.__len__, len3. simpl. lia.
  - reflexivity.
Defined.

(** ** Saving and loading *)


(** X23.  For every library saved to two distinct paths and every limits
    that hold a sample of its axis strictly inside, loading with these
    limits raises NameError and returns no library. *)
Theorem read_hdf_window_with_sample_raises today self paramfile specfile
    (fs fs' : gmap string hdf5) wavlim v :
  paramfile ≠ specfile →
  Library.to_hdf self paramfile specfile fs = (Ok (), fs') →
  v ∈ Library.wav self → in_window wavlim v = true →
  read_hdf today fs' paramfile specfile (Some wavlim)
  = Raise (NameError "h5").
Proof.
  intros Hne Hsave Hv Hin.
  destruct (to_hdf_saved _ _ _ _ _ Hne Hsave) as [Hp Hs].
  rewrite (read_hdf_window_outcome today self) by done.
  by destruct (np_where_cons (in_window wavlim) _ v Hv Hin) as (i & idx & ->).
Qed.

Lemma read_hdf_window_with_sample_raises_witness :
  read_hdf "2016-07-02"
    (<["spectra.h5" := saved_spectra wide]>
       (<["params.h5" := saved_params wide]> ∅))
    "params.h5" "spectra.h5" (Some (5000, 5010)%float)
  = Raise (NameError "h5").
Proof.
  apply (read_hdf_window_with_sample_raises "2016-07-02" wide "params.h5"
           "spectra.h5" ∅ _ (5000, 5010)%float 5000.5%float).
  - discriminate.
  - vm_compute. reflexivity.
  - apply list_elem_of_lookup_2 with 1%nat. vm_compute. reflexivity.
  - reflexivity.
Defined.



(** X19.  [to_hdf] of a library that satisfies invariants 1 and 3, with a
    float64 tensor, can complete only when the number N of entries is
    between 1 and 6250 and the chunk column count floor(6250 / N), which is
    floor(100000 / (16 N)), does not exceed the number W of wavelength
    samples: outside these bounds the chunk shape cannot be computed or is
    refused. *)
Theorem to_hdf_completes_only_if self paramfile specfile
    (fs : gmap string hdf5) :
  consistent self →
  (Library.to_hdf self paramfile specfile fs).1 = Ok () →
  (1 ≤ Z.of_nat (Library.__len__ self) ≤ 6250)%Z
  ∧ (6250 `div` Z.of_nat (Library.__len__ self)
     ≤ Z.of_nat (length (Library.wav self)))%Z.
Proof.
  intros (_ & Hd1 & Hd2). rewrite to_hdf_outcome. cbv zeta.
  unfold nbytes_col0, Library.__len__. rewrite Hd1, Hd2.
  set (N := Z.of_nat (len3 (Library.library_spectra self))).
  set (W := length (Library.wav self)).
  assert (0 ≤ N)%Z as HN by lia.
  destruct (decide (W = 0%nat)) as [HW|HW];
    [rewrite (bool_decide_eq_true_2 _ HW)
    |rewrite (bool_decide_eq_false_2 _ HW)]; [discriminate|].
  unfold int_truediv, Library.target_chunk_bytes.
  destruct (decide (N * Z.of_nat 2 * 8 = 0)) as [Hz|Hz];
    [rewrite (bool_decide_eq_true_2 _ Hz)
    |rewrite (bool_decide_eq_false_2 _ Hz)]; [discriminate|].
  assert (100000 `div` (N * Z.of_nat 2 * 8) = 6250 `div` N) as ->.
  { replace 100000 with (6250 * 16) by lia.
    replace (N * Z.of_nat 2 * 8) with (N * 16) by lia.
    apply Z.div_mul_cancel_r; lia. }
  unfold chunks_fit, shape3. rewrite Hd1, Hd2. fold N. fold W.
  destruct (decide (0 < 6250 `div` N ≤ Z.of_nat W)%Z) as [Hq|Hq].
  - intros _. split; [|lia]. split; [lia|].
    destruct (decide (N ≤ 6250)%Z); [done|].
    rewrite Z.div_small in Hq by lia. lia.
  - rewrite (bool_decide_eq_false_2 (0 < 6250 `div` N ≤ _)%Z) by done.
    rewrite andb_false_r. discriminate.
Qed.

Lemma to_hdf_completes_only_if_witness :
  (1 ≤ Z.of_nat (Library.__len__ wide) ≤ 6250)%Z
  ∧ (6250 `div` Z.of_nat (Library.__len__ wide)
     ≤ Z.of_nat (length (Library.wav wide)))%Z.
Proof.
  apply (to_hdf_completes_only_if wide "params.h5" "spectra.h5" ∅).
  - split_and!; [reflexivity|reflexivity|]. vm_compute. reflexivity.
  - vm_compute. reflexivity.
Defined.

(** X20.  Whatever its outcome, [to_hdf] leaves every file other than the
    two it is given as it was. *)
Theorem to_hdf_touches_only_its_paths self paramfile specfile
    (fs : gmap string hdf5) path :
  path ≠ paramfile → path ≠ specfile →
  (Library.to_hdf self paramfile specfile fs).2 !! path = fs !! path.
Proof.
  intros H1 H2. rewrite to_hdf_outcome. cbv zeta.
  destruct (nbytes_col0 _) as [nbytes|e]; simpl;
    [|by rewrite !lookup_insert_ne].
  destruct (int_truediv _ _) as [chunk_col|e]; simpl;
    [|by rewrite !lookup_insert_ne].
  destruct (chunks_fit _ _); simpl; by rewrite !lookup_insert_ne.
Qed.

Lemma to_hdf_touches_only_its_paths_witness :
  (Library.to_hdf empty2 "params.h5" "spectra.h5"
     {["other.h5" := saved_spectra (stars 1)]}).2 !! "other.h5"
  = ({["other.h5" := saved_spectra (stars 1)]} : gmap string hdf5)
    !! "other.h5".
Proof.
  apply (to_hdf_touches_only_its_paths empty2 "params.h5" "spectra.h5"
           {["other.h5" := saved_spectra (stars 1)]} "other.h5");
    discriminate.
Defined.

(** X22.  Where saving to two distinct paths succeeded, a library that
    satisfies the constructor's checks is loaded, without limits, as a
    library of the same length with the saved axis and tensor, the saved
    header with a new date stamp, and no wavelength limits, whatever its
    own were. *)
Theorem load_after_save_keeps_arrays today self paramfile specfile
    (fs fs' : gmap string hdf5) :
  paramfile ≠ specfile →
  consistent self → has_required_fields (Library.library_params self) →
  (∀ i, i ∈ df_index (Library.library_params self) →
        i < Z.of_nat (Library.__len__ self)) →
  Library.to_hdf self paramfile specfile fs = (Ok (), fs') →
  ∃ lib,
    read_hdf today fs' paramfile specfile None = Ok lib
    ∧ Library.__len__ lib = Library.__len__ self
    ∧ Library.wav lib = Library.wav self
    ∧ Library.library_spectra lib = Library.library_spectra self
    ∧ Library.header lib
      = <["date_created" := SStr today]> (Library.header self)
    ∧ Library.wavlim lib = None.
Proof.
  intros Hne Hcons Hreq Hidx Hsave.
  rewrite (save_load_roundtrip today self paramfile specfile fs fs')
    by done.
  eexists. split; [reflexivity|]. by split_and!.
Qed.

Lemma load_after_save_keeps_arrays_witness :
  ∃ lib,
    read_hdf "2016-07-02"
      (<["spectra.h5" := saved_spectra wide]>
         (<["params.h5" := saved_params wide]> ∅))
      "params.h5" "spectra.h5" None = Ok lib
    ∧ Library.__len__ lib = Library.__len__ wide
    ∧ Library.wav lib = Library.wav wide
    ∧ Library.library_spectra lib = Library.library_spectra wide
    ∧ Library.header lib
      = <["date_created" := SStr "2016-07-02"]> (Library.header wide)
    ∧ Library.wavlim lib = None.
Proof.
  apply (load_after_save_keeps_arrays "2016-07-02" wide "params.h5"
           "spectra.h5" ∅).
  - discriminate.
  - split_and!; [reflexivity|reflexivity|]. vm_compute. reflexivity.
  - intros col Hcol. exact Hcol.
  - intros i Hi. apply list_elem_of_singleton in Hi as ->.
    unfold Library.__len__, len3. simpl. lia.
  - vm_compute. reflexivity.
Defined.

(** X25.  [read_hdf] runs the constructor's checks on what was saved: when
    a library whose table has rows and the required fields, but not as many
    rows as the tensor has entries, was saved to two distinct paths,
    loading it back raises the length-mismatch assertion error.  (A table
    without rows is left out: pandas writes no table node for it.) *)
Theorem load_rejects_inconsistent_save today self paramfile specfile
    (fs fs' : gmap string hdf5) :
  paramfile ≠ specfile →
  Library.to_hdf self paramfile specfile fs = (Ok (), fs') →
  has_required_fields (Library.library_params self) →
  (0 < df_len (Library.library_params self))%nat →
  df_len (Library.library_params self) ≠ len3 (Library.library_spectra self) →
  read_hdf today fs' paramfile specfile None
  = Raise (AssertionError msg_length).
Proof.
  intros Hne Hsave Hreq _ Hlen.
  destruct (to_hdf_saved _ _ _ _ _ Hne Hsave) as [Hp Hs].
  rewrite (read_hdf_full_outcome today self) by done.
  destruct (init_full_cases today (Library.wav self)
              (Library.library_spectra self) (Library.library_params self)
              (Library.header self) None)
    as [(col & Hcol & Hn & _)
       |[(_ & _ & Hr)
       |[(_ & ? & _)
       |[(_ & ? & _)
       |(_ & ? & _)]]]]; try done.
  destruct Hn. by apply Hreq.
Qed.

Lemma load_rejects_inconsistent_save_witness :
  read_hdf "2016-07-02"
    (<["spectra.h5" := saved_spectra (table_appended wide star_row)]>
       (<["params.h5" := saved_params (table_appended wide star_row)]> ∅))
    "params.h5" "spectra.h5" None
  = Raise (AssertionError msg_length).
Proof.
  apply (load_rejects_inconsistent_save "2016-07-02"
           (table_appended wide star_row) "params.h5" "spectra.h5" ∅).
  - discriminate.
  - vm_compute. reflexivity.
  - intros col Hcol. apply elem_of_app. left. exact Hcol.
  - unfold df_len. simpl. lia.
  - unfold df_len, len3. simpl. lia.
Defined.
